(** * Alert lifecycle and geospatial matching

    A shallow embedding of the Express router for [/api/alerts]
    (the route file that requires [../models/Alert], [../middleware/auth]
    and [../middleware/validation]) and the properties of its handlers.

    Layout: JavaScript values and coercions, the document store with its
    query language, the request monad (store, clock, exceptions), the
    seven route handlers, and then the theorems. *)

From Stdlib Require Import ZArith QArith Qabs Qround String Ascii List Lia Lqa.
From stdpp Require Import base option list gmap strings.

Set Default Proof Using "Type".
Local Open Scope string_scope.

(* ===================================================================== *)
(** ** JavaScript numbers, query-string texts and values *)
(* ===================================================================== *)

Module JS.

(** A JavaScript number.  Finite doubles are idealised as exact
    rationals (kept reduced); the sign of zero is not tracked. *)
Inductive jsnum :=
  | JNum (q : Q)
  | JNaN
  | JInf (negative : bool).

Definition jq (q : Q) : jsnum := JNum (Qred q).
Definition jz (z : Z) : jsnum := JNum (inject_Z z).

Definition q_sign_neg (q : Q) : bool := (Qnum q <? 0)%Z.
Definition q_is_zero (q : Q) : bool := (Qnum q =? 0)%Z.

(** [a - b] *)
Definition js_sub (a b : jsnum) : jsnum :=
  match a, b with
  | JNaN, _ | _, JNaN => JNaN
  | JNum x, JNum y => jq (x - y)
  | JInf s, JNum _ => JInf s
  | JNum _, JInf s => JInf (negb s)
  | JInf s, JInf t => if Bool.eqb s t then JNaN else JInf s
  end.

(** [a * b] *)
Definition js_mul (a b : jsnum) : jsnum :=
  match a, b with
  | JNaN, _ | _, JNaN => JNaN
  | JNum x, JNum y => jq (x * y)
  | JInf s, JNum y | JNum y, JInf s =>
      if q_is_zero y then JNaN else JInf (xorb s (q_sign_neg y))
  | JInf s, JInf t => JInf (xorb s t)
  end.

(** [a / b] *)
Definition js_div (a b : jsnum) : jsnum :=
  match a, b with
  | JNaN, _ | _, JNaN => JNaN
  | JNum x, JNum y =>
      if q_is_zero y
      then (if q_is_zero x then JNaN else JInf (q_sign_neg x))
      else jq (x / y)
  | JInf s, JNum y => JInf (xorb s (q_sign_neg y))
  | JNum _, JInf _ => jz 0
  | JInf _, JInf _ => JNaN
  end.

(** [Math.ceil(a)] *)
Definition js_ceil (a : jsnum) : jsnum :=
  match a with
  | JNum x => jz (Qceiling x)
  | other => other
  end.

(** The whole number a finite [jsnum] denotes, if it denotes one. *)
Definition as_integer (a : jsnum) : option Z :=
  match a with
  | JNum x => if Qeq_bool x (inject_Z (Qfloor x)) then Some (Qfloor x) else None
  | _ => None
  end.

(** A numeric request parameter.  Express hands query and path
    parameters over as strings; a destructuring default supplies a
    number literal instead.  The text is classified by how the three
    coercions used in the router read it:
    - [NumLit q]: a plain decimal numeral such as ["20"], ["-5"] or
      ["28.6139"] (or the number literal of a default): every coercion
      yields [q], [parseInt] its integer part;
    - [Blank]: the empty string, which is falsy, is [0] under [* 1]
      and [NaN] under [parseFloat] / [parseInt];
    - [Junk]: text with no numeric reading at all, such as ["abc"].
    Numerals with exponents, radix prefixes, padding or the word
    Infinity are outside this input domain. *)
Inductive numtext :=
  | NumLit (q : Q)
  | Blank
  | Junk.

(** [ToNumber], as applied by [x * 1], [x - 1] and [total / x]. *)
Definition to_number (t : numtext) : jsnum :=
  match t with
  | NumLit q => JNum q
  | Blank => jz 0
  | Junk => JNaN
  end.

Definition parseFloat (t : numtext) : jsnum :=
  match t with
  | NumLit q => JNum q
  | Blank | Junk => JNaN
  end.

Definition parseInt (t : numtext) : jsnum :=
  match t with
  | NumLit q => jz (Z.quot (Qnum q) (Zpos (Qden q)))
  | Blank | Junk => JNaN
  end.

Definition truthy_num (t : option numtext) : bool :=
  match t with
  | None | Some Blank => false
  | Some _ => true
  end.

Definition truthy_text (t : option string) : bool :=
  match t with
  | None | Some EmptyString => false
  | Some _ => true
  end.

(** JSON-like values as the router and the store exchange them.
    Dates are instants in milliseconds; [VId] is an ObjectId. *)
#[warnings="-register-all"]
Inductive value :=
  | VUndef
  | VNull
  | VBool (b : bool)
  | VNum (q : Q)
  | VStr (s : string)
  | VDate (t : Z)
  | VId (i : nat)
  | VArr (l : list value)
  | VObj (o : gmap string value).

(** [if (v)] *)
Definition truthy (v : value) : bool :=
  match v with
  | VUndef | VNull => false
  | VBool b => b
  | VNum q => negb (q_is_zero q)
  | VStr s => negb (String.eqb s EmptyString)
  | VDate _ | VId _ | VArr _ | VObj _ => true
  end.

(** [a || b] *)
Definition js_or (a b : value) : value := if truthy a then a else b.

(** [v.k] on a value that is neither [undefined] nor [null]: a missing
    property, or any property of a primitive, reads as [undefined]. *)
Definition get_prop (v : value) (k : string) : value :=
  match v with
  | VObj o => default VUndef (o !! k)
  | _ => VUndef
  end.

(** [v.k] in general: reading a property of [undefined] or [null]
    throws a TypeError ([None]). *)
Definition get_prop_strict (v : value) (k : string) : option value :=
  match v with
  | VUndef | VNull => None
  | _ => Some (get_prop v k)
  end.

End JS.
Export JS.

(* ===================================================================== *)
(** ** The alert collection and its query language *)
(* ===================================================================== *)

(** An alert document: field name to value.  The schema file
    ([models/Alert]) is not part of the sources at hand, so documents are
    kept as the store sees them. *)
Abbreviation doc := (gmap string value).

(** What the router cannot decide by itself: the geometry of the
    database's [$centerSphere] operator, the process clock and the
    schema validators.
    - [sphere_angle p q] is the central angle, in radians, between the
      [(lng, lat)] points [p] and [q] as the database measures it;
    - [clock n] is the instant (ms) returned by the [n]-th clock read;
    - [schema_ok d] tells whether [d] passes the schema's validators;
    - [creation_ok body] is the verdict of [validateAlertCreation]. *)
Record backend := {
  sphere_angle : Q * Q → Q * Q → Q;
  clock : nat → Z;
  schema_ok : doc → bool;
  creation_ok : value → bool
}.

Module Mongo.

(** One entry of a filter object. *)
Inductive cond :=
  | CEq (v : value)                          (* { k: v } *)
  | CLte (v : value)                         (* { k: { $lte: v } } *)
  | CGte (v : value)                         (* { k: { $gte: v } } *)
  | CGeoWithin (lng lat radius : jsnum).     (* { k: { $geoWithin: { $centerSphere: [[lng, lat], radius] } } } *)

(** BSON comparison order: type bracket first, then the value. *)
Definition bson_rank (v : value) : nat :=
  match v with
  | VUndef | VNull => 1
  | VNum _ => 2
  | VStr _ => 3
  | VObj _ => 4
  | VArr _ => 5
  | VId _ => 7
  | VBool _ => 8
  | VDate _ => 9
  end.

(** Strings compare byte-wise (no collation is requested anywhere in the
    router); objects and arrays are not used as keys and compare equal. *)
Definition bson_compare (a b : value) : comparison :=
  match Nat.compare (bson_rank a) (bson_rank b) with
  | Eq =>
      match a, b with
      | VNum x, VNum y => Qcompare x y
      | VStr x, VStr y => String.compare x y
      | VBool x, VBool y => Bool.compare x y
      | VDate x, VDate y => Z.compare x y
      | VId x, VId y => Nat.compare x y
      | _, _ => Eq
      end
  | c => c
  end.

(** A missing field sorts and compares as [null]. *)
Definition field (d : doc) (k : string) : value := default VNull (d !! k).

Definition is_scalar (v : value) : bool :=
  match v with
  | VArr _ | VObj _ => false
  | _ => true
  end.

Definition bson_eqb (a b : value) : bool :=
  is_scalar a && is_scalar b &&
  match bson_compare a b with Eq => true | _ => false end.

Definition same_bracket (a b : value) : bool :=
  Nat.eqb (bson_rank a) (bson_rank b).

(** A GeoJSON point: [{ type: 'Point', coordinates: [lng, lat], ... }]. *)
Definition geo_point (v : value) : option (Q * Q) :=
  match v with
  | VObj o =>
      match o !! "type", o !! "coordinates" with
      | Some (VStr "Point"), Some (VArr [VNum lng; VNum lat]) => Some (lng, lat)
      | _, _ => None
      end
  | _ => None
  end.

Definition filter := gmap string cond.

(** May the database evaluate this condition at all?  [$centerSphere]
    rejects a centre that is not a longitude/latitude pair and a radius
    that is not a non-negative number. *)
Definition cond_wf (c : cond) : bool :=
  match c with
  | CGeoWithin (JNum lng) (JNum lat) (JNum r) =>
      Qle_bool (-180) lng && Qle_bool lng 180 &&
      Qle_bool (-90) lat && Qle_bool lat 90 && Qle_bool 0 r
  | CGeoWithin _ _ _ => false
  | _ => true
  end.

Definition filter_wf (f : gmap string cond) : bool :=
  bool_decide (map_Forall (λ _ c, cond_wf c = true) f).

Section Matching.
Variable B : backend.

Definition cond_holds (c : cond) (v : value) : bool :=
  match c with
  | CEq w => bson_eqb v w
  | CLte w =>
      same_bracket v w &&
      match bson_compare v w with Gt => false | _ => true end
  | CGte w =>
      same_bracket v w &&
      match bson_compare v w with Lt => false | _ => true end
  | CGeoWithin (JNum lng) (JNum lat) (JNum r) =>
      match geo_point v with
      | Some p => Qle_bool (sphere_angle B (lng, lat) p) r
      | None => false
      end
  | CGeoWithin _ _ _ => false
  end.

(** A document matches a filter object when every entry holds. *)
Definition matches (f : gmap string cond) (d : doc) : bool :=
  bool_decide (map_Forall (λ k c, cond_holds c (field d k) = true) f).

End Matching.

(** [.sort(...)]: keys in order, [true] for descending ([-1] or a
    leading minus sign in the string form). *)
Definition sortspec := list (string * bool).

Fixpoint doc_compare (s : sortspec) (a b : doc) : comparison :=
  match s with
  | [] => Eq
  | (k, desc) :: s' =>
      match bson_compare (field a k) (field b k) with
      | Eq => doc_compare s' a b
      | c => if desc then CompOpp c else c
      end
  end.

Definition doc_leb (s : sortspec) (a b : doc) : bool :=
  match doc_compare s a b with Gt => false | _ => true end.

Fixpoint insert_sorted (s : sortspec) (x : doc) (l : list doc) : list doc :=
  match l with
  | [] => [x]
  | y :: l' => if doc_leb s y x then y :: insert_sorted s x l' else x :: l
  end.

(** The order among documents with equal keys is the store's to choose;
    this model keeps them in collection order. *)
Definition sort_docs (s : sortspec) (l : list doc) : list doc :=
  foldr (insert_sorted s) [] (rev l).

(** [.skip(n)]: a whole number of documents, never negative. *)
Definition apply_skip (n : jsnum) (l : list doc) : option (list doc) :=
  match as_integer n with
  | Some z => if (0 <=? z)%Z then Some (drop (Z.to_nat z) l) else None
  | None => None
  end.

(** [.limit(n)]: [0] means no limit and a negative [n] is read as
    [-n]; anything that is not a whole number is refused. *)
Definition apply_limit (n : jsnum) (l : list doc) : option (list doc) :=
  match as_integer n with
  | Some z => if (z =? 0)%Z then Some l else Some (take (Z.to_nat (Z.abs z)) l)
  | None => None
  end.

(** A query under construction. *)
Record query := {
  q_conditions : gmap string cond;
  q_sort : sortspec;
  q_limit : option jsnum;
  q_skip : option jsnum
}.

(** [$group: { _id: '$k', count: { $sum: 1 } }], groups listed in order
    of first appearance. *)
Fixpoint bump (key : value) (groups : list (value * nat)) : list (value * nat) :=
  match groups with
  | [] => [(key, 1)]
  | (k, n) :: rest =>
      if bson_eqb k key then (k, S n) :: rest else (k, n) :: bump key rest
  end.

Definition group_count (k : string) (l : list doc) : list (value * nat) :=
  foldl (λ acc d, bump (field d k) acc) [] l.

(** [$count: 'count']: one document holding the count, none at all
    when the input is empty. *)
Definition count_stage (l : list doc) : list nat :=
  match l with
  | [] => []
  | _ => [length l]
  end.

End Mongo.
Export Mongo.

(* ===================================================================== *)
(** ** Requests: store, clock and exceptions *)
(* ===================================================================== *)

(** The state a request runs against: the collection in insertion
    order, the next ObjectId, and two counters that record how often the
    clock was read and how many store operations were issued. *)
Record world := {
  w_docs : list doc;
  w_next_id : nat;
  w_clock_reads : nat;
  w_store_ops : nat
}.

Inductive outcome (A : Type) :=
  | Ok (a : A)
  | Thrown.
Arguments Ok {A} a.
Arguments Thrown {A}.

(** Code that may read and write the world and may throw. *)
Definition M (A : Type) : Type := world → outcome A * world.

#[global] Instance M_ret : MRet M := λ A a w, (Ok a, w).
#[global] Instance M_bind : MBind M := λ A B f m w,
  match m w with
  | (Ok a, w') => f a w'
  | (Thrown, w') => (Thrown, w')
  end.

Definition throw {A} : M A := λ w, (Thrown, w).

Definition lift_option {A} (o : option A) : M A :=
  match o with
  | Some a => mret a
  | None => throw
  end.

Definition get_docs : M (list doc) := λ w, (Ok (w_docs w), w).

Definition put_docs (l : list doc) : M () := λ w,
  (Ok (), {| w_docs := l; w_next_id := w_next_id w;
             w_clock_reads := w_clock_reads w; w_store_ops := w_store_ops w |}).

Definition fresh_id : M nat := λ w,
  (Ok (w_next_id w), {| w_docs := w_docs w; w_next_id := S (w_next_id w);
                        w_clock_reads := w_clock_reads w; w_store_ops := w_store_ops w |}).

(** Every call on the [Alert] model counts as one store operation. *)
Definition store_op : M () := λ w,
  (Ok (), {| w_docs := w_docs w; w_next_id := w_next_id w;
             w_clock_reads := w_clock_reads w; w_store_ops := S (w_store_ops w) |}).

Section Store.
Variable B : backend.

(** [new Date()] and [Date.now()]: the next reading of the clock. *)
Definition new_date : M Z := λ w,
  (Ok (clock B (w_clock_reads w)),
   {| w_docs := w_docs w; w_next_id := w_next_id w;
      w_clock_reads := S (w_clock_reads w); w_store_ops := w_store_ops w |}).

Definition has_id (id : nat) (d : doc) : bool := bson_eqb (field d "_id") (VId id).

(** Writes by id touch the first document carrying that id. *)
Fixpoint replace_doc (id : nat) (d' : doc) (l : list doc) : list doc :=
  match l with
  | [] => []
  | d :: rest => if has_id id d then d' :: rest else d :: replace_doc id d' rest
  end.

Fixpoint remove_doc (id : nat) (l : list doc) : list doc :=
  match l with
  | [] => []
  | d :: rest => if has_id id d then rest else d :: remove_doc id rest
  end.

(** [query.exec()]: filter, sort, skip, limit, in that order whatever
    the order of the builder calls. *)
Definition exec_find (q : query) : M (list doc) :=
  _ ← store_op;
  if filter_wf (q_conditions q) then
    ds ← get_docs;
    let hits := List.filter (matches B (q_conditions q)) ds in
    let sorted := sort_docs (q_sort q) hits in
    skipped ← lift_option (from_option (λ n, apply_skip n sorted) (Some sorted) (q_skip q));
    lift_option (from_option (λ n, apply_limit n skipped) (Some skipped) (q_limit q))
  else throw.

(** [Alert.countDocuments(filter)] *)
Definition count_documents (f : gmap string cond) : M nat :=
  _ ← store_op;
  if filter_wf f then
    ds ← get_docs;
    mret (length (List.filter (matches B f) ds))
  else throw.

(** [Alert.findById(id)] *)
Definition find_by_id (id : nat) : M (option doc) :=
  _ ← store_op;
  ds ← get_docs;
  mret (List.find (has_id id) ds).

(** Modelled from the spec: the schema's timestamp option is not in the
    sources; the specification says [createdAt] and [updatedAt] are
    maintained by the store and never client-settable, so every write
    stamps them from the clock. *)
Definition stamp_updated (d : doc) : M doc :=
  now ← new_date;
  mret (<["updatedAt" := VDate now]> d).

(** Modelled from the spec: as [stamp_updated], for a new document
    ([createdAt] and [updatedAt] both set by the store). *)
Definition stamp_created (d : doc) : M doc :=
  now ← new_date;
  mret (<["updatedAt" := VDate now]> (<["createdAt" := VDate now]> d)).

(** [doc.save()] of a document loaded under [id]. *)
Definition save (id : nat) (d : doc) : M doc :=
  _ ← store_op;
  if schema_ok B d then
    d' ← stamp_updated d;
    ds ← get_docs;
    _ ← put_docs (replace_doc id d' ds);
    mret d'
  else throw.

(** [Alert.create(data)] *)
Definition create (data : doc) : M doc :=
  _ ← store_op;
  if schema_ok B data then
    id ← fresh_id;
    d ← stamp_created (<["_id" := VId id]> data);
    ds ← get_docs;
    _ ← put_docs (ds ++ [d]);
    mret d
  else throw.

(** [Alert.findByIdAndUpdate(id, update, { new: true, runValidators:
    true })]: an update object without operators is applied as [$set],
    so each of its fields replaces the stored field of that name and
    every other stored field stays.  The [_id] cannot be changed. *)
Definition find_by_id_and_update (id : nat) (update : doc) : M (option doc) :=
  _ ← store_op;
  ds ← get_docs;
  match List.find (has_id id) ds with
  | None => mret None
  | Some old =>
      if schema_ok B update && from_option (λ v, bson_eqb v (VId id)) true (update !! "_id") then
        d' ← stamp_updated (update ∪ old);
        _ ← put_docs (replace_doc id d' ds);
        mret (Some d')
      else throw
  end.

(** [Alert.findByIdAndDelete(id)] *)
Definition find_by_id_and_delete (id : nat) : M () :=
  _ ← store_op;
  ds ← get_docs;
  put_docs (remove_doc id ds).

End Store.

(* ===================================================================== *)
(** ** The router *)
(* ===================================================================== *)

Record pagination := {
  current : jsnum;
  pages : jsnum;
  total : nat
}.

(** [stats[0]] of the [$facet] aggregation. *)
Record overview := {
  totalAlerts : list nat;
  activeAlerts : list nat;
  alertsByType : list (value * nat);
  alertsBySeverity : list (value * nat);
  recentAlerts : list nat
}.

Inductive response :=
  | AlertList (alerts : list doc) (p : pagination)   (* 200 { alerts, pagination } *)
  | AlertDoc (status : nat) (alert : doc)            (* 200 / 201 { alert } *)
  | AlertNull                                        (* 200 { alert: null } *)
  | NearbyAlerts (alerts : list doc)                 (* 200 { alerts } *)
  | Deleted                                          (* 200 *)
  | Overview (stats : overview)                      (* 200 { stats } *)
  | Failure (status : nat) (message : string).

(** The caller as the identity service resolves it. *)
Record identity := {
  user_id : nat;
  user_role : string
}.

Record request := {
  req_caller : option identity;   (* whom the presented credentials resolve to *)
  req_user : option identity;     (* req.user, once a middleware has set it *)
  req_id : nat;                   (* req.params.id *)
  req_body : value                (* req.body *)
}.

(** [GET /api/alerts] query string. *)
Record list_query := {
  lq_type : option string;
  lq_severity : option string;
  lq_status : option string;
  lq_lat : option numtext;
  lq_lng : option numtext;
  lq_radius : option numtext;
  lq_limit : option numtext;
  lq_page : option numtext;
  lq_sort : option sortspec
}.

(** [GET /api/alerts/location/:lat/:lng] path and query parameters. *)
Record nearby_query := {
  nq_lat : numtext;
  nq_lng : numtext;
  nq_radius : option numtext;
  nq_type : option string;
  nq_severity : option string
}.

(** [try { ... } catch (error) { res.status(500)... }] *)
Definition try_catch (body : M response) (message : string) (w : world) : response * world :=
  match body w with
  | (Ok r, w') => (r, w')
  | (Thrown, w') => (Failure 500 message, w')
  end.

(** [if (x) filter.k = x] for a text parameter. *)
Definition add_text (k : string) (x : option string) (f : gmap string cond) : gmap string cond :=
  match x with
  | Some s => if truthy_text x then <[k := CEq (VStr s)]> f else f
  | None => f
  end.

(** [{ $geoWithin: { $centerSphere: [[longitude, latitude], searchRadius] } }]
    with [searchRadius = parseFloat(radius) / 6371]. *)
Definition center_sphere (lat lng radius : numtext) : cond :=
  let latitude := parseFloat lat in
  let longitude := parseFloat lng in
  let searchRadius := js_div (parseFloat radius) (jz 6371) in
  CGeoWithin longitude latitude searchRadius.

(** [{ ...v }] of a request body: the fields of a JSON object (bodies
    that are not objects contribute no schema field). *)
Definition spread (v : value) : doc :=
  match v with
  | VObj o => o
  | _ => ∅
  end.

Definition seven_days : Z := 7 * 24 * 60 * 60 * 1000.

Section Router.
Variable B : backend.

(** *** GET /api/alerts *)

(** Lines 26-30: the filter object before the date entries. *)
Definition list_base_filter (q : list_query) : gmap string cond :=
  let status := default "active" (lq_status q) in
  let filter : gmap string cond := {[ "isPublic" := CEq (VBool true) ]} in
  let filter := add_text "type" (lq_type q) filter in
  let filter := add_text "severity" (lq_severity q) filter in
  add_text "status" (Some status) filter.

(** Lines 33-37. *)
Definition add_window (now : Z) (f : gmap string cond) : gmap string cond :=
  <["validUntil" := CGte (VDate now)]> (<["validFrom" := CLte (VDate now)]> f).

Definition list_filter (q : list_query) : M (gmap string cond) :=
  let status := default "active" (lq_status q) in
  let filter := list_base_filter q in
  if String.eqb status "active" then
    now ← new_date B;
    mret (add_window now filter)
  else mret filter.

(** Lines 40-60: the query handed to [exec]. *)
Definition list_query_of (q : list_query) (filter : gmap string cond) : query :=
  let radius := default (NumLit 50) (lq_radius q) in
  let limit := default (NumLit 20) (lq_limit q) in
  let page := default (NumLit 1) (lq_page q) in
  let sort := default [("createdAt", true)] (lq_sort q) in
  let conditions :=
    match lq_lat q, lq_lng q with
    | Some lat, Some lng =>
        if truthy_num (lq_lat q) && truthy_num (lq_lng q)
        then <["location" := center_sphere lat lng radius]> filter
        else filter
    | _, _ => filter
    end in
  {| q_conditions := conditions;
     q_sort := sort;
     q_limit := Some (js_mul (to_number limit) (jz 1));
     q_skip := Some (js_mul (js_sub (to_number page) (jz 1)) (to_number limit)) |}.

Definition list_alerts (q : list_query) : world → response * world :=
  try_catch (
    let limit := default (NumLit 20) (lq_limit q) in
    let page := default (NumLit 1) (lq_page q) in
    filter ← list_filter q;
    alerts ← exec_find B (list_query_of q filter);
    total ← count_documents B filter;
    mret (AlertList alerts
            {| current := parseInt page;
               pages := js_ceil (js_div (jz (Z.of_nat total)) (to_number limit));
               total := total |})
  ) "Server error while fetching alerts".

(** *** GET /api/alerts/:id *)

(** [alert.statistics.views += 1]; a counter that is not a number
    becomes [NaN], which the store refuses to save. *)
Definition bump_views (d : doc) : option doc :=
  match get_prop (field d "statistics") "views" with
  | VNum n => Some (<["statistics" := VObj (<["views" := VNum (Qred (n + 1))]> (spread (field d "statistics")))]> d)
  | _ => None
  end.

Definition get_alert (id : nat) : world → response * world :=
  try_catch (
    found ← find_by_id id;
    match found with
    | None => mret (Failure 404 "Alert not found")
    | Some alert =>
        viewed ← lift_option (bump_views alert);
        saved ← save B id viewed;
        mret (AlertDoc 200 saved)
    end
  ) "Server error while fetching alert".

(** *** The gate in front of the mutating routes *)

Inductive step :=
  | Next (r : request)
  | Respond (resp : response).

Definition middleware := request → world → step * world.

(** Modelled from the spec: [protect] lives in [middleware/auth], which
    is not in the sources.  Per section 4.5 of the specification a call
    without a caller identity fails with Forbidden before any store
    access; otherwise the identity becomes [req.user]. *)
Definition protect : middleware := λ r w,
  match req_caller r with
  | None => (Respond (Failure 403 "Forbidden"), w)
  | Some u =>
      (Next {| req_caller := req_caller r; req_user := Some u;
               req_id := req_id r; req_body := req_body r |}, w)
  end.

(** Modelled from the spec: [authorize(...roles)] lives in
    [middleware/auth] too.  A caller whose role is not among [roles]
    fails with Forbidden before any store access. *)
Definition authorize (roles : list string) : middleware := λ r w,
  match req_user r with
  | Some u =>
      if bool_decide (user_role u ∈ roles) then (Next r, w)
      else (Respond (Failure 403 "Forbidden"), w)
  | None => (Respond (Failure 403 "Forbidden"), w)
  end.

(** [validateAlertCreation] ([middleware/validation], not in the
    sources): its verdict is the backend's [creation_ok]. *)
Definition validateAlertCreation : middleware := λ r w,
  if creation_ok B (req_body r) then (Next r, w)
  else (Respond (Failure 400 "Validation error"), w).

(** [router.verb(path, m1, ..., mn, handler)] *)
Fixpoint route (ms : list middleware) (handler : request → world → response * world)
    (r : request) (w : world) : response * world :=
  match ms with
  | [] => handler r w
  | m :: ms' =>
      match m r w with
      | (Next r', w') => route ms' handler r' w'
      | (Respond resp, w') => (resp, w')
      end
  end.

(** *** POST /api/alerts *)

Definition create_handler (r : request) : world → response * world :=
  try_catch (
    user ← lift_option (req_user r);
    let body := req_body r in
    location ← lift_option (
      match get_prop body "location" with
      | VUndef | VNull => None
      | l => Some l
      end);
    let alertData : doc :=
      <["location" := VObj (
          <["radius" := js_or (get_prop location "radius") (VNum 50)]> (
          <["country" := get_prop location "country"]> (
          <["state" := get_prop location "state"]> (
          <["city" := get_prop location "city"]> (
          <["address" := get_prop location "address"]> (
          <["coordinates" := get_prop location "coordinates"]> (
          {[ "type" := VStr "Point" ]})))))))]> (
      <["createdBy" := VId (user_id user)]> (spread body)) in
    alert ← create B alertData;
    mret (AlertDoc 201 alert)
  ) "Server error while creating alert".

Definition post_alert : request → world → response * world :=
  route [protect; authorize ["admin"]; validateAlertCreation] create_handler.

(** *** PUT /api/alerts/:id *)

(** Lines 176-184: the location object written by an update. *)
Definition update_location (patch_location : value) (alert : doc) : value :=
  VObj (
    <["radius" := js_or (get_prop patch_location "radius")
                        (get_prop (field alert "location") "radius")]> (
    <["country" := get_prop patch_location "country"]> (
    <["state" := get_prop patch_location "state"]> (
    <["city" := get_prop patch_location "city"]> (
    <["address" := get_prop patch_location "address"]> (
    <["coordinates" := get_prop patch_location "coordinates"]> (
    {[ "type" := VStr "Point" ]}))))))).

(** Lines 169-185. *)
Definition update_data (body : value) (user : identity) (alert : doc) : doc :=
  let updateData : doc := <["updatedBy" := VId (user_id user)]> (spread body) in
  if truthy (get_prop body "location")
  then <["location" := update_location (get_prop body "location") alert]> updateData
  else updateData.

Definition update_handler (r : request) : world → response * world :=
  try_catch (
    found ← find_by_id (req_id r);
    match found with
    | None => mret (Failure 404 "Alert not found")
    | Some alert =>
        user ← lift_option (req_user r);
        updated ← find_by_id_and_update B (req_id r) (update_data (req_body r) user alert);
        match updated with
        | Some updatedAlert => mret (AlertDoc 200 updatedAlert)
        | None => mret AlertNull
        end
    end
  ) "Server error while updating alert".

Definition put_alert : request → world → response * world :=
  route [protect; authorize ["admin"]] update_handler.

(** *** DELETE /api/alerts/:id *)

Definition delete_handler (r : request) : world → response * world :=
  try_catch (
    found ← find_by_id (req_id r);
    match found with
    | None => mret (Failure 404 "Alert not found")
    | Some _ =>
        _ ← find_by_id_and_delete (req_id r);
        mret Deleted
    end
  ) "Server error while deleting alert".

Definition delete_alert : request → world → response * world :=
  route [protect; authorize ["admin"]] delete_handler.

(** *** GET /api/alerts/location/:lat/:lng *)

(** Lines 249-262.  The two [new Date()] expressions of the object
    literal are two clock reads, [validFrom]'s first. *)
Definition nearby_filter (q : nearby_query) : M (gmap string cond) :=
  let radius := default (NumLit 50) (nq_radius q) in
  let location := center_sphere (nq_lat q) (nq_lng q) radius in
  from ← new_date B;
  until ← new_date B;
  let filter : gmap string cond :=
    <["validUntil" := CGte (VDate until)]> (
    <["validFrom" := CLte (VDate from)]> (
    <["location" := location]> (
    <["status" := CEq (VStr "active")]> (
    {[ "isPublic" := CEq (VBool true) ]})))) in
  let filter := add_text "type" (nq_type q) filter in
  mret (add_text "severity" (nq_severity q) filter).

(** [.sort({ severity: -1, createdAt: -1 })] *)
Definition nearby_sort : sortspec := [("severity", true); ("createdAt", true)].

Definition nearby_alerts (q : nearby_query) : world → response * world :=
  try_catch (
    filter ← nearby_filter q;
    alerts ← exec_find B {| q_conditions := filter; q_sort := nearby_sort;
                            q_limit := Some (jz 50); q_skip := None |};
    mret (NearbyAlerts alerts)
  ) "Server error while fetching location alerts".

(** *** GET /api/alerts/stats/overview *)

(** The [$match] of the [activeAlerts] facet. *)
Definition active_match (now : Z) : gmap string cond :=
  <["validUntil" := CGte (VDate now)]> (
  <["validFrom" := CLte (VDate now)]> (
  {[ "status" := CEq (VStr "active") ]})).

(** The [$match] of the [recentAlerts] facet. *)
Definition recent_match (since : Z) : gmap string cond :=
  {[ "createdAt" := CGte (VDate since) ]}.

(** [Alert.aggregate([{ $facet: ... }])] over the whole collection. *)
Definition aggregate_facets (active recent : gmap string cond) : M overview :=
  _ ← store_op;
  ds ← get_docs;
  mret {| totalAlerts := count_stage ds;
          activeAlerts := count_stage (List.filter (matches B active) ds);
          alertsByType := group_count "type" ds;
          alertsBySeverity := group_count "severity" ds;
          recentAlerts := count_stage (List.filter (matches B recent) ds) |}.

(** Line 287 reads the clock into [now]; line 324 reads it again with
    [Date.now()] while the pipeline literal is built. *)
Definition stats_handler (r : request) : world → response * world :=
  try_catch (
    now ← new_date B;
    date_now ← new_date B;
    stats ← aggregate_facets (active_match now) (recent_match (date_now - seven_days));
    mret (Overview stats)
  ) "Server error while fetching alert statistics".

Definition stats_overview : request → world → response * world :=
  route [protect; authorize ["admin"]] stats_handler.

End Router.

(* ===================================================================== *)
(** ** Scenario data *)
(* ===================================================================== *)

Module Scenario.

(** A stand-in geometry for running examples: the sum of the longitude
    and latitude differences, in radians (with 355/113 for pi). *)
Definition taxicab_angle (p q : Q * Q) : Q :=
  ((Qabs (p.1 - q.1) + Qabs (p.2 - q.2)) * (355 # 113) / 180)%Q.

(** 2024-01-05T00:00Z, in milliseconds. *)
Definition jan5 : Z := 1704412800000.
Definition day : Z := 24 * 60 * 60 * 1000.

(** A clock that advances one millisecond between two reads. *)
Definition ticking (n : nat) : Z := (jan5 + Z.of_nat n)%Z.

Definition demo : backend :=
  {| sphere_angle := taxicab_angle;
     clock := ticking;
     schema_ok := λ _, true;
     creation_ok := λ _, true |}.

Definition point (lng lat radius : Q) : value :=
  VObj (list_to_map
    [("type", VStr "Point"); ("coordinates", VArr [VNum lng; VNum lat]);
     ("address", VStr "Ridge Road"); ("city", VStr "New Delhi");
     ("radius", VNum radius)]).

Definition alert (id : nat) (type severity status : string) (public : bool)
    (from until created : Z) (location : value) : doc :=
  list_to_map
    [("_id", VId id); ("type", VStr type); ("severity", VStr severity);
     ("status", VStr status); ("isPublic", VBool public);
     ("validFrom", VDate from); ("validUntil", VDate until);
     ("createdAt", VDate created); ("updatedAt", VDate created);
     ("createdBy", VId 100); ("location", location);
     ("statistics", VObj {[ "views" := VNum 0 ]})].

Definition delhi : value := point (77209 # 1000) (286139 # 10000) 50.
Definition mumbai : value := point (728777 # 10000) (19076 # 1000) 50.

Definition jan1 : Z := (jan5 - 4 * day)%Z.
Definition jan10 : Z := (jan5 + 5 * day)%Z.

Definition store_of (l : list doc) : world :=
  {| w_docs := l; w_next_id := 1000; w_clock_reads := 0; w_store_ops := 0 |}.

Definition any_list : list_query :=
  {| lq_type := None; lq_severity := None; lq_status := None;
     lq_lat := None; lq_lng := None; lq_radius := None;
     lq_limit := None; lq_page := None; lq_sort := None |}.

(** A List query centred at (lng 77.10, lat 28.70), some 14 km from
    [delhi]; the radius defaults to 50 km. *)
Definition near_delhi : list_query :=
  {| lq_type := None; lq_severity := None; lq_status := None;
     lq_lat := Some (NumLit (287 # 10)); lq_lng := Some (NumLit (771 # 10));
     lq_radius := None; lq_limit := None; lq_page := None; lq_sort := None |}.

(** The location route asked about the very point of [delhi]. *)
Definition at_delhi : nearby_query :=
  {| nq_lat := NumLit (286139 # 10000); nq_lng := NumLit (77209 # 1000);
     nq_radius := None; nq_type := None; nq_severity := None |}.

Definition admin : identity := {| user_id := 7; user_role := "admin" |}.
Definition resident : identity := {| user_id := 8; user_role := "user" |}.

Definition call (who : option identity) (id : nat) (body : value) : request :=
  {| req_caller := who; req_user := None; req_id := id; req_body := body |}.

(** In its window and public, but administratively resolved. *)
Definition resolved_flood : doc :=
  alert 1 "flood" "high" "resolved" true jan1 jan10 jan1 delhi.

(** In its window and active, but not public. *)
Definition internal_note : doc :=
  alert 3 "other" "low" "active" false jan1 jan10 jan1 delhi.

Definition mumbai_flood : doc :=
  alert 4 "flood" "high" "active" true jan1 jan10 jan1 mumbai.

Definition critical_slide : doc :=
  alert 5 "landslide" "critical" "active" true jan1 jan10 (jan1 + 2) delhi.

Definition medium_flood : doc :=
  alert 6 "flood" "medium" "active" true jan1 jan10 (jan1 + 1) delhi.

(** Created exactly seven days before [jan5]. *)
Definition week_old : doc :=
  alert 9 "flood" "low" "active" true jan1 jan10 (jan5 - seven_days) delhi.


(** A patch that moves the alert and names the city, leaving out the
    address and the radius. *)
Definition relocate : value :=
  VObj {[ "location" := VObj (list_to_map
    [("coordinates", VArr [VNum (770266 # 10000); VNum (284595 # 10000)]);
     ("city", VStr "Gurugram")]) ]}.

Definition ids (l : list doc) : list value := map (λ d, field d "_id") l.

End Scenario.

(* ===================================================================== *)
(** ** Vocabulary of the properties *)
(* ===================================================================== *)

Definition is_public (a : doc) : Prop := field a "isPublic" = VBool true.

(** The alert's window has opened by [t] / has not closed at [t]. *)
Definition valid_from_by (a : doc) (t : Z) : Prop :=
  ∃ from, field a "validFrom" = VDate from ∧ (from ≤ t)%Z.

Definition valid_until_at (a : doc) (t : Z) : Prop :=
  ∃ until, field a "validUntil" = VDate until ∧ (t ≤ until)%Z.

(** [validFrom <= now <= validUntil] *)
Definition in_window (a : doc) (now : Z) : Prop :=
  valid_from_by a now ∧ valid_until_at a now.

(** A text parameter constrains a field only when it is non-empty. *)
Definition text_param_ok (x : option string) (v : value) : Prop :=
  ∀ s, x = Some s → s ≠ EmptyString → v = VStr s.

(** The world after [n] further clock reads and [m] further store
    operations, the collection untouched. *)
Definition advanced (n m : nat) (w : world) : world :=
  {| w_docs := w_docs w; w_next_id := w_next_id w;
     w_clock_reads := n + w_clock_reads w; w_store_ops := m + w_store_ops w |}.

(** The documents a query selects, before skip and limit. *)
Definition selected (B : backend) (q : query) (w : world) : list doc :=
  sort_docs (q_sort q) (List.filter (matches B (q_conditions q)) (w_docs w)).

(** Skip, then limit; [None] when the store refuses either. *)
Definition paged (q : query) (l : list doc) : option (list doc) :=
  skipped ← from_option (λ n, apply_skip n l) (Some l) (q_skip q);
  from_option (λ n, apply_limit n skipped) (Some skipped) (q_limit q).

(** The filter object [GET /api/alerts] ends up with when the clock
    reads [now]. *)
Definition list_filter_at (q : list_query) (now : Z) : gmap string cond :=
  if String.eqb (default "active" (lq_status q)) "active"
  then add_window now (list_base_filter q)
  else list_base_filter q.

(** Clock reads made while that filter is built. *)
Definition list_clock_reads (q : list_query) : nat :=
  if String.eqb (default "active" (lq_status q)) "active" then 1 else 0.

(** What the handler requires of an alert when [status] is "active". *)
Definition active_list_conditions (q : list_query) (now : Z) (a : doc) : Prop :=
  is_public a ∧
  text_param_ok (lq_type q) (field a "type") ∧
  text_param_ok (lq_severity q) (field a "severity") ∧
  field a "status" = VStr "active" ∧
  in_window a now.

(** The same without the stored-status equality. *)
Definition window_only_conditions (q : list_query) (now : Z) (a : doc) : Prop :=
  is_public a ∧
  text_param_ok (lq_type q) (field a "type") ∧
  text_param_ok (lq_severity q) (field a "severity") ∧
  in_window a now.

Definition list_failure : response := Failure 500 "Server error while fetching alerts".

(** The alerts a response carries. *)
Definition response_alerts (r : response) : list doc :=
  match r with
  | AlertList l _ | NearbyAlerts l => l
  | AlertDoc _ d => [d]
  | _ => []
  end.

(** The great-circle distance in kilometres on the sphere of radius
    6371 km, from the angle the database measures. *)
Definition distance_km (B : backend) (p q : Q * Q) : Q :=
  (6371 * sphere_angle B p q)%Q.


(** The filter object [GET /api/alerts/location/:lat/:lng] builds when
    its two clock reads return [from] and [until]. *)
Definition nearby_literal (q : nearby_query) (from until : Z) : gmap string cond :=
  <["validUntil" := CGte (VDate until)]> (
  <["validFrom" := CLte (VDate from)]> (
  <["location" := center_sphere (nq_lat q) (nq_lng q) (default (NumLit 50) (nq_radius q))]> (
  <["status" := CEq (VStr "active")]> (
  {[ "isPublic" := CEq (VBool true) ]})))).

Definition nearby_filter_at (q : nearby_query) (from until : Z) : gmap string cond :=
  add_text "severity" (nq_severity q) (add_text "type" (nq_type q) (nearby_literal q from until)).

Definition nearby_query_at (q : nearby_query) (from until : Z) : query :=
  {| q_conditions := nearby_filter_at q from until; q_sort := nearby_sort;
     q_limit := Some (jz 50); q_skip := None |}.

Definition nearby_failure : response :=
  Failure 500 "Server error while fetching location alerts".

(** The severity scale of the data model: low < medium < high < critical. *)
Definition severity_level (v : value) : option nat :=
  match v with
  | VStr "low" => Some 0
  | VStr "medium" => Some 1
  | VStr "high" => Some 2
  | VStr "critical" => Some 3
  | _ => None
  end.

(** The query [q] with its [limit] and [page] parameters replaced. *)
Definition with_paging (q : list_query) (limit page : option numtext) : list_query :=
  {| lq_type := lq_type q; lq_severity := lq_severity q; lq_status := lq_status q;
     lq_lat := lq_lat q; lq_lng := lq_lng q; lq_radius := lq_radius q;
     lq_limit := limit; lq_page := page; lq_sort := lq_sort q |}.

(** [ceil(t / n)] on whole numbers, for [n > 0]. *)
Definition ceil_div (t n : Z) : Z := (- ((- t) / n))%Z.

Definition forbidden : response := Failure 403 "Forbidden".

(** The caller is absent or does not hold the admin role. *)
Definition not_admin (r : request) : Prop :=
  ∀ u, req_caller r = Some u → user_role u ≠ "admin".


(* ===================================================================== *)
(** ** The dashboard page (frontend/src/pages/Dashboard.js) *)
(* ===================================================================== *)

Module Dashboard.

(** [v === 'text'] *)
Definition strict_eq_text (v : value) (s : string) : bool :=
  match v with
  | VStr t => String.eqb t s
  | _ => false
  end.


(** Line 66: [axios.get('/api/alerts?limit=5&status=active')]. *)
Definition alerts_request : list_query :=
  {| lq_type := None; lq_severity := None; lq_status := Some "active";
     lq_lat := None; lq_lng := None; lq_radius := None;
     lq_limit := Some (NumLit 5); lq_page := None; lq_sort := None |}.

(** Lines 31 and 66-69: the [alerts] state after the first fetch; it
    starts empty and is set from a successful answer only. *)
Definition fetched_alerts (r : response) : list doc :=
  match r with
  | AlertList l _ => l
  | _ => []
  end.

(** [alert.severity === 'high' || alert.severity === 'critical'] *)
Definition urgent (alert : doc) : bool :=
  strict_eq_text (get_prop (VObj alert) "severity") "high"
  || strict_eq_text (get_prop (VObj alert) "severity") "critical".

(** The "Active Alerts" card (line 158). *)
Definition active_alerts_card (alerts : list doc) : nat :=
  length (List.filter urgent alerts).

(** The "Total Alerts" card (line 171). *)
Definition total_alerts_card (alerts : list doc) : nat := length alerts.

(** [alerts.slice(0, 3)] of the "Recent Alerts" panel (line 329). *)
Definition recent_alerts (alerts : list doc) : list doc := take 3 alerts.

End Dashboard.

(* ===================================================================== *)
(** ** Further vocabulary *)
(* ===================================================================== *)

(** No two stored documents carry the same [_id]. *)
Definition unique_ids (l : list doc) : Prop := NoDup (map (λ d, field d "_id") l).

(** Neighbours in [l] are in the order of the sort specification. *)
Definition ordered (s : sortspec) (l : list doc) : Prop :=
  ∀ i a b, l !! i = Some a → l !! S i = Some b → doc_leb s a b = true.



(** The query [q] with its location parameters removed. *)
Definition without_location (q : list_query) : list_query :=
  {| lq_type := lq_type q; lq_severity := lq_severity q; lq_status := lq_status q;
     lq_lat := None; lq_lng := None; lq_radius := None;
     lq_limit := lq_limit q; lq_page := lq_page q; lq_sort := lq_sort q |}.

(** Page [p] of [q] with [n] alerts to the page. *)
Definition page_request (q : list_query) (n p : Z) : list_query :=
  with_paging q (Some (NumLit (inject_Z n))) (Some (NumLit (inject_Z p))).

(** Pages [1 .. k] requested one after the other, their alerts
    concatenated. *)
Fixpoint fetch_pages (B : backend) (q : list_query) (n : Z) (k : nat) (w : world)
    : list doc * world :=
  match k with
  | O => ([], w)
  | S k' =>
      let '(seen, w1) := fetch_pages B q n k' w in
      let '(r, w2) := list_alerts B (page_request q n (Z.of_nat k)) w1 in
      ((seen ++ response_alerts r)%list, w2)
  end.

(** The count a [$group] output holds for a key (0 when it has no
    group). *)
Definition count_for (key : value) (groups : list (value * nat)) : nat :=
  match List.find (λ g, bson_eqb g.1 key) groups with
  | Some g => g.2
  | None => 0
  end.

Definition not_found : response := Failure 404 "Alert not found".

Definition create_failure : response := Failure 500 "Server error while creating alert".

(** The caller is an admin. *)
Definition admin_call (r : request) (user : identity) : Prop :=
  req_caller r = Some user ∧ user_role user = "admin".

(** A backend like [Scenario.demo] whose clock stands still. *)
Definition frozen : backend :=
  {| sphere_angle := Scenario.taxicab_angle;
     clock := λ _, Scenario.jan5;
     schema_ok := λ _, true;
     creation_ok := λ _, true |}.


(** The documents whose field [k] holds the text [t]. *)
Definition with_text (k t : string) (l : list doc) : list doc :=
  List.filter (λ d, bson_eqb (field d k) (VStr t)) l.

Definition group_sum (groups : list (value * nat)) : nat := sum_list (map snd groups).

(** Scenario requests used to exercise the theorems below. *)
Definition expired_list : list_query :=
  {| lq_type := None; lq_severity := None; lq_status := Some "expired";
     lq_lat := None; lq_lng := None; lq_radius := None;
     lq_limit := None; lq_page := None; lq_sort := None |}.

Definition latitude_only : list_query :=
  {| lq_type := None; lq_severity := None; lq_status := None;
     lq_lat := Some (NumLit (287 # 10)); lq_lng := None; lq_radius := None;
     lq_limit := None; lq_page := None; lq_sort := None |}.

Definition three_alerts : list doc :=
  [Scenario.medium_flood; Scenario.critical_slide; Scenario.mumbai_flood].


(* ===================================================================== *)
(** ** Facts about values, conditions and filters *)
(* ===================================================================== *)

(** Closes an equation between closed terms by evaluating both sides. *)
Ltac vm_refl :=
  lazymatch goal with
  | |- _ = ?b => vm_cast_no_check (@eq_refl _ b)
  end.

Section Facts.
Variable B : backend.

Lemma string_compare_refl s : String.compare s s = Eq.
Proof.
  pose proof (String.compare_antisym s s) as H.
  by destruct (String.compare s s).
Qed.

Lemma bson_eqb_bool v b : bson_eqb v (VBool b) = true ↔ v = VBool b.
Proof.
  split; [| intros ->; by destruct b].
  destruct v as [| |b'| | | | | |]; try done.
  by destruct b', b.
Qed.

Lemma bson_eqb_str v s : bson_eqb v (VStr s) = true ↔ v = VStr s.
Proof.
  split.
  - destruct v as [| | | |s'| | | |]; try done.
    unfold bson_eqb, bson_compare; cbn.
    destruct (String.compare s' s) eqn:E; try done.
    intros _. f_equal. by apply String.compare_eq_iff.
  - intros ->. unfold bson_eqb, bson_compare; cbn. by rewrite string_compare_refl.
Qed.

Lemma cond_lte_date v now :
  cond_holds B (CLte (VDate now)) v = true ↔ ∃ t, v = VDate t ∧ (t ≤ now)%Z.
Proof.
  split.
  - destruct v as [| | | | |t| | |]; try done.
    unfold cond_holds, same_bracket, bson_compare; cbn.
    destruct (Z.compare_spec t now); try done; intros _; exists t; split; try done; lia.
  - intros (t & -> & Hle). unfold cond_holds, same_bracket, bson_compare; cbn.
    destruct (Z.compare_spec t now); try done. lia.
Qed.

Lemma cond_gte_date v now :
  cond_holds B (CGte (VDate now)) v = true ↔ ∃ t, v = VDate t ∧ (now ≤ t)%Z.
Proof.
  split.
  - destruct v as [| | | | |t| | |]; try done.
    unfold cond_holds, same_bracket, bson_compare; cbn.
    destruct (Z.compare_spec t now); try done; intros _; exists t; split; try done; lia.
  - intros (t & -> & Hle). unfold cond_holds, same_bracket, bson_compare; cbn.
    destruct (Z.compare_spec t now); try done. lia.
Qed.

Lemma matches_spec (f : gmap string cond) (d : doc) :
  matches B f d = true ↔ ∀ k c, f !! k = Some c → cond_holds B c (field d k) = true.
Proof. unfold matches. by rewrite bool_decide_eq_true. Qed.

Lemma matches_insert (f : gmap string cond) k c (d : doc) :
  f !! k = None →
  matches B (<[k := c]> f) d = true ↔
  cond_holds B c (field d k) = true ∧ matches B f d = true.
Proof.
  intros Hk. unfold matches. rewrite !bool_decide_eq_true.
  by apply (map_Forall_insert (λ k c, cond_holds B c (field d k) = true)).
Qed.

Lemma matches_insert_weaken (f : gmap string cond) k c (d : doc) :
  f !! k = None → matches B (<[k := c]> f) d = true → matches B f d = true.
Proof. intros Hk H. by apply matches_insert in H as [_ H]. Qed.

Lemma matches_singleton k c (d : doc) :
  matches B {[ k := c ]} d = true ↔ cond_holds B c (field d k) = true.
Proof.
  rewrite matches_spec. split.
  - intros H. apply H. by rewrite lookup_singleton_eq.
  - intros H j c' [-> ->]%lookup_singleton_Some. done.
Qed.

Lemma add_text_lookup_ne k x (f : gmap string cond) j :
  j ≠ k → add_text k x f !! j = f !! j.
Proof.
  intros Hne. unfold add_text. destruct x as [s|]; [|done].
  destruct (truthy_text (Some s)); [|done]. by rewrite lookup_insert_ne.
Qed.

Lemma truthy_text_spec s : truthy_text (Some s) = true ↔ s ≠ EmptyString.
Proof. destruct s; cbn; split; done. Qed.

Lemma matches_add_text k x (f : gmap string cond) (d : doc) :
  f !! k = None →
  matches B (add_text k x f) d = true ↔
  text_param_ok x (field d k) ∧ matches B f d = true.
Proof.
  intros Hk. unfold add_text, text_param_ok. destruct x as [s|].
  - destruct (truthy_text (Some s)) eqn:E.
    + rewrite matches_insert by done. cbn [cond_holds]. rewrite bson_eqb_str.
      apply truthy_text_spec in E. split.
      * intros [H1 H2]. split; [|done]. by intros s' [= <-] _.
      * intros [H1 H2]. split; [|done]. by apply H1.
    + split; [|by intros [_ ?]]. intros H. split; [|done].
      intros s' [= <-] Hne. apply truthy_text_spec in Hne. congruence.
  - split; [|by intros [_ ?]]. intros H. split; [|done]. by intros s' [=].
Qed.

End Facts.

(* ===================================================================== *)
(** ** Facts about sorting, paging and the store operations *)
(* ===================================================================== *)

Section Execution.
Variable B : backend.

Lemma elem_of_insert_sorted s x y (l : list doc) :
  y ∈ insert_sorted s x l ↔ y = x ∨ y ∈ l.
Proof.
  induction l as [|z l IH]; cbn.
  - rewrite list_elem_of_singleton, elem_of_nil. tauto.
  - destruct (doc_leb s z x); rewrite !elem_of_cons; [rewrite IH|]; tauto.
Qed.

Lemma elem_of_sort_docs s y (l : list doc) : y ∈ sort_docs s l ↔ y ∈ l.
Proof.
  unfold sort_docs. transitivity (y ∈ rev l).
  - induction (rev l) as [|z k IH]; cbn; [done|].
    by rewrite elem_of_insert_sorted, IH, elem_of_cons.
  - rewrite !list_elem_of_In. symmetry. apply in_rev.
Qed.

Lemma length_insert_sorted s x (l : list doc) :
  length (insert_sorted s x l) = S (length l).
Proof.
  induction l as [|z l IH]; cbn; [done|].
  destruct (doc_leb s z x); cbn; by rewrite ?IH.
Qed.

Lemma length_sort_docs s (l : list doc) : length (sort_docs s l) = length l.
Proof.
  unfold sort_docs. rewrite <- (length_rev l).
  induction (rev l) as [|z k IH]; cbn; [done|].
  by rewrite length_insert_sorted, IH.
Qed.

Lemma apply_skip_elem n (l l' : list doc) x :
  apply_skip n l = Some l' → x ∈ l' → x ∈ l.
Proof.
  unfold apply_skip. destruct (as_integer n) as [z|]; [|done].
  destruct (0 <=? z)%Z; [|done]. intros [= <-] Hx.
  eapply elem_of_sublist; [done | apply sublist_drop].
Qed.

Lemma apply_limit_elem n (l l' : list doc) x :
  apply_limit n l = Some l' → x ∈ l' → x ∈ l.
Proof.
  unfold apply_limit. destruct (as_integer n) as [z|]; [|done].
  destruct (z =? 0)%Z; intros [= <-] Hx; [done|].
  eapply elem_of_sublist; [done | apply sublist_take].
Qed.

Lemma as_integer_jz z : as_integer (jz z) = Some z.
Proof. unfold as_integer, jz. by rewrite Qfloor_Z, Qeq_bool_refl. Qed.

Lemma apply_limit_jz z (l : list doc) :
  z ≠ 0%Z → apply_limit (jz z) l = Some (take (Z.to_nat (Z.abs z)) l).
Proof.
  intros Hz. unfold apply_limit. rewrite as_integer_jz.
  by destruct (Z.eqb_spec z 0).
Qed.

Lemma exec_find_run q w :
  exec_find B q w =
  (if filter_wf (q_conditions q)
   then from_option Ok Thrown (paged q (selected B q w))
   else Thrown,
   advanced 0 1 w).
Proof.
  unfold exec_find, paged, selected, mbind, M_bind, store_op, get_docs, lift_option,
    throw, mret, M_ret, advanced; cbn.
  destruct (filter_wf _); [|done].
  destruct (from_option _ _ (q_skip q)) as [sk|]; cbn; [|done].
  by destruct (from_option _ _ (q_limit q)).
Qed.

Lemma count_documents_run f w :
  count_documents B f w =
  (if filter_wf f then Ok (length (List.filter (matches B f) (w_docs w))) else Thrown,
   advanced 0 1 w).
Proof.
  unfold count_documents, mbind, M_bind, store_op, get_docs, throw, mret, M_ret,
    advanced; cbn.
  by destruct (filter_wf f).
Qed.

Lemma elem_of_selected q w x :
  x ∈ selected B q w ↔ x ∈ w_docs w ∧ matches B (q_conditions q) x = true.
Proof.
  unfold selected. rewrite elem_of_sort_docs, !list_elem_of_In. apply filter_In.
Qed.

Lemma paged_elem q (l l' : list doc) x : paged q l = Some l' → x ∈ l' → x ∈ l.
Proof.
  unfold paged. intros H Hx.
  destruct (from_option _ _ (q_skip q)) as [sk|] eqn:Hs; [|done]. cbn in H.
  assert (x ∈ sk) as Hsk.
  { destruct (q_limit q); cbn in H; [by eapply apply_limit_elem | by injection H as <-]. }
  destruct (q_skip q); cbn in Hs; [by eapply apply_skip_elem | by injection Hs as <-].
Qed.

Lemma advanced_advanced n m n' m' w :
  advanced n m (advanced n' m' w) = advanced (n + n') (m + m') w.
Proof. unfold advanced; cbn. f_equal; lia. Qed.

End Execution.

(* ===================================================================== *)
(** ** GET /api/alerts: the filter and the page *)
(* ===================================================================== *)

Section Listing.
Variable B : backend.

Lemma filter_wf_spec (f : gmap string cond) :
  filter_wf f = true ↔ ∀ k c, f !! k = Some c → cond_wf c = true.
Proof. unfold filter_wf. by rewrite bool_decide_eq_true. Qed.

Lemma filter_wf_insert k c (f : gmap string cond) :
  cond_wf c = true → filter_wf f = true → filter_wf (<[k := c]> f) = true.
Proof.
  rewrite !filter_wf_spec. intros Hc Hf j c' [[-> ->]|[_ H]]%lookup_insert_Some; eauto.
Qed.

Lemma filter_wf_add_text k x (f : gmap string cond) :
  filter_wf f = true → filter_wf (add_text k x f) = true.
Proof.
  intros Hf. unfold add_text. destruct x as [s|]; [|done].
  destruct (truthy_text _); [|done]. by apply filter_wf_insert.
Qed.

Lemma list_base_filter_wf q : filter_wf (list_base_filter q) = true.
Proof.
  unfold list_base_filter. do 3 apply filter_wf_add_text.
  apply filter_wf_spec. by intros k c [_ <-]%lookup_singleton_Some.
Qed.

Lemma list_filter_at_wf q now : filter_wf (list_filter_at q now) = true.
Proof.
  unfold list_filter_at, add_window. destruct (String.eqb _ _).
  - do 2 (apply filter_wf_insert; [done|]). apply list_base_filter_wf.
  - apply list_base_filter_wf.
Qed.

Lemma list_base_filter_lookup q k :
  k ≠ "isPublic" → k ≠ "type" → k ≠ "severity" → k ≠ "status" →
  list_base_filter q !! k = None.
Proof.
  intros. unfold list_base_filter.
  rewrite !add_text_lookup_ne by done. by rewrite lookup_singleton_ne.
Qed.

Lemma list_filter_at_location q now : list_filter_at q now !! "location" = None.
Proof.
  unfold list_filter_at, add_window. destruct (String.eqb _ _).
  - rewrite !lookup_insert_ne by done. by apply list_base_filter_lookup.
  - by apply list_base_filter_lookup.
Qed.

Lemma list_filter_run q w :
  list_filter B q w =
  (Ok (list_filter_at q (clock B (w_clock_reads w))), advanced (list_clock_reads q) 0 w).
Proof.
  unfold list_filter, list_filter_at, list_clock_reads.
  destruct (String.eqb _ _); [done|]. by destruct w.
Qed.

(** The handler, unfolded once and for all: it answers with a page
    exactly when the store accepts the query. *)
Lemma list_alerts_run q w :
  let f := list_filter_at q (clock B (w_clock_reads w)) in
  let qr := list_query_of q f in
  list_alerts B q w =
  match (if filter_wf (q_conditions qr) then paged qr (selected B qr w) else None) with
  | Some l =>
      (AlertList l
         {| current := parseInt (default (NumLit 1) (lq_page q));
            pages := js_ceil (js_div (jz (Z.of_nat (length (List.filter (matches B f) (w_docs w)))))
                                     (to_number (default (NumLit 20) (lq_limit q))));
            total := length (List.filter (matches B f) (w_docs w)) |},
       advanced (list_clock_reads q) 2 w)
  | None => (list_failure, advanced (list_clock_reads q) 1 w)
  end.
Proof.
  intros f qr. unfold list_alerts, try_catch.
  unfold mbind at 1. unfold M_bind at 1. rewrite list_filter_run. fold f.
  unfold mbind at 1. unfold M_bind at 1. rewrite exec_find_run. fold qr.
  rewrite advanced_advanced.
  change (selected B qr (advanced (list_clock_reads q) 0 w)) with (selected B qr w).
  destruct (filter_wf (q_conditions qr)); [|done].
  destruct (paged qr (selected B qr w)) as [l|]; cbn [from_option]; [|done].
  unfold mbind, M_bind. rewrite count_documents_run.
  pose proof (list_filter_at_wf q (clock B (w_clock_reads w))) as Hwf.
  fold f in Hwf. rewrite Hwf, advanced_advanced. done.
Qed.

(** Whatever the query, the reported total is the number of stored
    alerts matching the filter object as it stood before any location
    condition was attached to the query, and the reported page count is
    [ceil(total / limit)]. *)
Lemma list_total_is_filter_count q w l p w' :
  list_alerts B q w = (AlertList l p, w') →
  total p = length (List.filter (matches B (list_filter_at q (clock B (w_clock_reads w))))
                                (w_docs w)) ∧
  pages p = js_ceil (js_div (jz (Z.of_nat (total p)))
                            (to_number (default (NumLit 20) (lq_limit q)))).
Proof.
  rewrite list_alerts_run. cbn zeta.
  destruct (if filter_wf _ then _ else _); [|done].
  by intros [= <- <- <-].
Qed.

Lemma list_conditions_weaken q f (a : doc) :
  f !! "location" = None →
  matches B (q_conditions (list_query_of q f)) a = true → matches B f a = true.
Proof.
  intros Hloc. unfold list_query_of; cbn.
  destruct (lq_lat q) as [lat|], (lq_lng q) as [lng|]; try done.
  destruct (_ && _); [|done]. by apply matches_insert_weaken.
Qed.

Lemma text_param_ok_some s v : s ≠ EmptyString → text_param_ok (Some s) v ↔ v = VStr s.
Proof.
  intros Hs. unfold text_param_ok. split; [by eauto|].
  by intros -> s' [= <-] _.
Qed.

Lemma matches_active_filter q now (a : doc) :
  default "active" (lq_status q) = "active" →
  matches B (add_window now (list_base_filter q)) a = true ↔
  active_list_conditions q now a.
Proof.
  intros Hs.
  unfold add_window, active_list_conditions, in_window, valid_from_by, valid_until_at,
    is_public.
  rewrite matches_insert by (rewrite lookup_insert_ne by done; by apply list_base_filter_lookup).
  rewrite matches_insert by (by apply list_base_filter_lookup).
  rewrite cond_gte_date, cond_lte_date. unfold list_base_filter. rewrite Hs.
  rewrite matches_add_text
    by (rewrite !add_text_lookup_ne by done; by rewrite lookup_singleton_ne).
  rewrite matches_add_text by (rewrite !add_text_lookup_ne by done; by rewrite lookup_singleton_ne).
  rewrite matches_add_text by (by rewrite lookup_singleton_ne).
  rewrite matches_singleton. cbn [cond_holds]. rewrite bson_eqb_bool.
  rewrite text_param_ok_some by done. tauto.
Qed.

Lemma paged_defaults q f (l : list doc) :
  lq_limit q = None → lq_page q = None →
  paged (list_query_of q f) l = Some (take 20 l).
Proof.
  intros Hl Hp. unfold paged, list_query_of. rewrite Hl, Hp. cbn [q_skip q_limit default from_option].
  replace (js_mul (js_sub (to_number (NumLit 1)) (jz 1)) (to_number (NumLit 20)))
    with (jz 0) by reflexivity.
  replace (js_mul (to_number (NumLit 20)) (jz 1)) with (jz 20) by reflexivity.
  reflexivity.
Qed.

(** C1, as the code has it.  For a List query with [status] "active"
    (the default), the filter the handler builds matches an alert iff
    the alert is public, agrees with the type and severity parameters,
    has the STORED status "active", and its window contains the clock
    reading: the window test is added to the stored-status equality,
    not put in its place.  Every alert of the answer satisfies these
    conditions, and when no location is asked for and one default page
    holds all matches, every stored alert satisfying them is in the
    answer. *)
Theorem list_active_conjoins_stored_status (q : list_query) (w : world) (a : doc) :
  default "active" (lq_status q) = "active" →
  let now := clock B (w_clock_reads w) in
  let filter := add_window now (list_base_filter q) in
  list_filter B q w = (Ok filter, advanced 1 0 w) ∧
  (matches B filter a = true ↔ active_list_conditions q now a) ∧
  (a ∈ response_alerts (list_alerts B q w).1 →
     a ∈ w_docs w ∧ active_list_conditions q now a) ∧
  (lq_lat q = None → lq_limit q = None → lq_page q = None →
   (length (List.filter (matches B filter) (w_docs w)) ≤ 20)%nat →
   a ∈ w_docs w → active_list_conditions q now a →
   a ∈ response_alerts (list_alerts B q w).1).
Proof.
  intros Hs now filter.
  assert (list_filter_at q now = filter) as Hf.
  { unfold list_filter_at. by rewrite Hs. }
  assert (list_clock_reads q = 1) as Hr.
  { unfold list_clock_reads. by rewrite Hs. }
  split; [by rewrite list_filter_run, Hr; fold now; rewrite Hf|].
  split; [by apply matches_active_filter|].
  pose proof (list_alerts_run q w) as Hrun. cbn zeta in Hrun. fold now in Hrun.
  rewrite Hf in Hrun. rewrite Hrun. clear Hrun. split.
  - destruct (filter_wf _); [|by intros ?%elem_of_nil].
    destruct (paged _ _) as [l|] eqn:Hp; [|by intros ?%elem_of_nil].
    cbn. intros Ha. eapply paged_elem in Ha; [|done].
    apply elem_of_selected in Ha as [Hin Hm]. split; [done|].
    apply matches_active_filter; [done|]. fold filter.
    apply (list_conditions_weaken q); [|done].
    rewrite <- Hf. apply list_filter_at_location.
  - intros Hlat Hl Hp Hlen Hin Hc.
    assert (q_conditions (list_query_of q filter) = filter) as Hq.
    { unfold list_query_of. by rewrite Hlat. }
    rewrite Hq. rewrite <- Hf at 1. rewrite list_filter_at_wf.
    rewrite paged_defaults by done. cbn.
    rewrite take_ge.
    + apply elem_of_selected. rewrite Hq. split; [done|].
      by apply matches_active_filter.
    + unfold selected. by rewrite length_sort_docs, Hq.
Qed.

End Listing.

(** C1 as claimed fails: [resolved_flood] is public, inside its window
    at the clock reading and no type or severity is asked for, yet the
    default List query does not return it, because its stored status is
    "resolved". *)
Lemma list_active_window_not_substituted :
  window_only_conditions Scenario.any_list (clock Scenario.demo 0) Scenario.resolved_flood ∧
  (list_alerts Scenario.demo Scenario.any_list (Scenario.store_of [Scenario.resolved_flood])).1
  = AlertList [] {| current := jz 1; pages := jz 0; total := 0 |}.
Proof.
  split; [|vm_refl].
  split; [by vm_compute|]. do 2 (split; [by intros s [=]|]).
  split; eexists; (split; [by vm_compute|]); by vm_compute.
Qed.

Lemma list_active_conjoins_stored_status_witness :
  default "active" (lq_status Scenario.any_list) = "active" ∧
  (matches Scenario.demo
     (add_window (clock Scenario.demo 0) (list_base_filter Scenario.any_list))
     Scenario.critical_slide = true ↔
   active_list_conditions Scenario.any_list (clock Scenario.demo 0) Scenario.critical_slide).
Proof.
  split; [reflexivity|].
  exact (proj1 (proj2 (list_active_conjoins_stored_status Scenario.demo Scenario.any_list
    (Scenario.store_of [Scenario.critical_slide; Scenario.resolved_flood])
    Scenario.critical_slide eq_refl))).
Defined.


(* ===================================================================== *)
(** ** Public visibility *)
(* ===================================================================== *)

Section Visibility.
Variable B : backend.

Lemma matches_base_public q (a : doc) :
  matches B (list_base_filter q) a = true → is_public a.
Proof.
  unfold list_base_filter.
  rewrite matches_add_text
    by (rewrite !add_text_lookup_ne by done; by rewrite lookup_singleton_ne).
  rewrite matches_add_text by (rewrite !add_text_lookup_ne by done; by rewrite lookup_singleton_ne).
  rewrite matches_add_text by (by rewrite lookup_singleton_ne).
  rewrite matches_singleton. cbn [cond_holds]. rewrite bson_eqb_bool. tauto.
Qed.

Lemma matches_list_filter_public q now (a : doc) :
  matches B (list_filter_at q now) a = true → is_public a.
Proof.
  unfold list_filter_at, add_window. destruct (String.eqb _ _).
  - intros H.
    apply matches_insert_weaken in H;
      [|rewrite lookup_insert_ne by done; by apply list_base_filter_lookup].
    apply matches_insert_weaken in H; [|by apply list_base_filter_lookup].
    by eapply matches_base_public.
  - apply matches_base_public.
Qed.

(** X23.  The List path never answers with a non-public alert,
    whatever the parameters. *)
Lemma list_alerts_public_only q w (a : doc) :
  a ∈ response_alerts (list_alerts B q w).1 → is_public a.
Proof.
  rewrite list_alerts_run.
  destruct (filter_wf _); [|by intros ?%elem_of_nil].
  destruct (paged _ _) as [l|] eqn:Hp; [|by intros ?%elem_of_nil].
  cbn. intros Ha. eapply paged_elem in Ha; [|done].
  apply elem_of_selected in Ha as [_ Hm].
  apply list_conditions_weaken in Hm; [|apply list_filter_at_location].
  by eapply matches_list_filter_public.
Qed.

(** The by-id path has no visibility check at all: whatever alert is
    stored under the id comes back, its [isPublic] flag unread. *)
Lemma get_alert_ignores_visibility id w (a viewed : doc) :
  List.find (has_id id) (w_docs w) = Some a →
  bump_views a = Some viewed → schema_ok B viewed = true →
  (get_alert B id w).1
  = AlertDoc 200 (<["updatedAt" := VDate (clock B (w_clock_reads w))]> viewed) ∧
  viewed !! "isPublic" = a !! "isPublic".
Proof.
  intros Hfind Hview Hok. split.
  - unfold get_alert, try_catch, find_by_id, save, stamp_updated, mbind, M_bind, mret, M_ret,
      lift_option, store_op, get_docs, put_docs, new_date. cbn.
    rewrite Hfind, Hview. cbn. by rewrite Hok.
  - unfold bump_views in Hview. destruct (get_prop _ _); try done.
    injection Hview as <-. by rewrite lookup_insert_ne.
Qed.

End Visibility.

(** C2 at its failing input: [internal_note] is stored with
    [isPublic = false], and the public route [GET /api/alerts/:id]
    answers 200 with that very alert, its view counter incremented and
    its [updatedAt] stamped. *)
Theorem get_alert_serves_non_public :
  let served :=
    <["updatedAt" := VDate Scenario.jan5]> (
    <["statistics" := VObj {[ "views" := VNum 1 ]}]> Scenario.internal_note) in
  field Scenario.internal_note "isPublic" = VBool false ∧
  (get_alert Scenario.demo 3 (Scenario.store_of [Scenario.internal_note])).1
  = AlertDoc 200 served ∧
  field served "isPublic" = VBool false.
Proof. cbv zeta. split; [vm_refl|]. split; vm_refl. Qed.

(* ===================================================================== *)
(** ** Spatial containment and the location route *)
(* ===================================================================== *)

Section Spatial.
Variable B : backend.

Lemma center_sphere_holds (lat lng r : Q) (v : value) :
  cond_holds B (center_sphere (NumLit lat) (NumLit lng) (NumLit r)) v = true ↔
  ∃ p, geo_point v = Some p ∧ (distance_km B (lng, lat) p <= r)%Q.
Proof.
  unfold center_sphere, distance_km. cbn.
  assert (∀ x : Q, (x <= Qred (r / inject_Z 6371) ↔ 6371 * x <= r)%Q) as Hdiv.
  { intros x. rewrite Qred_correct. unfold inject_Z.
    split; intros H.
    - apply (Qmult_le_l _ _ (/ 6371)); [done|].
      assert (/ 6371 * (6371 * x) == x)%Q as -> by field.
      assert (/ 6371 * r == r / (6371 # 1))%Q as -> by field. done.
    - apply Qle_shift_div_l; [done|]. by rewrite Qmult_comm. }
  destruct (geo_point v) as [p|].
  - rewrite Qle_bool_iff, Hdiv. split; [by eauto|]. by intros (p' & [= <-] & H).
  - split; [done|]. by intros (p' & [=] & _).
Qed.




Lemma nearby_filter_run q w :
  nearby_filter B q w =
  (Ok (nearby_filter_at q (clock B (w_clock_reads w)) (clock B (S (w_clock_reads w)))),
   advanced 2 0 w).
Proof. done. Qed.

Lemma nearby_alerts_run q w :
  let qr := nearby_query_at q (clock B (w_clock_reads w)) (clock B (S (w_clock_reads w))) in
  nearby_alerts B q w =
  (match (if filter_wf (q_conditions qr) then paged qr (selected B qr w) else None) with
   | Some l => NearbyAlerts l
   | None => nearby_failure
   end, advanced 2 1 w).
Proof.
  intros qr. unfold nearby_alerts, try_catch.
  unfold mbind at 1. unfold M_bind at 1. rewrite nearby_filter_run.
  unfold mbind, M_bind. rewrite exec_find_run. fold (nearby_query_at q (clock B (w_clock_reads w))
    (clock B (S (w_clock_reads w)))). fold qr. rewrite advanced_advanced.
  change (selected B qr (advanced 2 0 w)) with (selected B qr w).
  destruct (filter_wf (q_conditions qr)); [|done].
  by destruct (paged qr (selected B qr w)).
Qed.

(** What the location route requires of an alert. *)
Lemma matches_nearby_filter q from until (a : doc) :
  matches B (nearby_filter_at q from until) a = true ↔
  is_public a ∧ field a "status" = VStr "active" ∧
  cond_holds B (center_sphere (nq_lat q) (nq_lng q) (default (NumLit 50) (nq_radius q)))
    (field a "location") = true ∧
  valid_from_by a from ∧ valid_until_at a until ∧
  text_param_ok (nq_type q) (field a "type") ∧
  text_param_ok (nq_severity q) (field a "severity").
Proof.
  unfold nearby_filter_at, nearby_literal, valid_from_by, valid_until_at, is_public.
  rewrite matches_add_text
    by (rewrite add_text_lookup_ne by done; rewrite !lookup_insert_ne by done;
        by rewrite lookup_singleton_ne).
  rewrite matches_add_text
    by (rewrite !lookup_insert_ne by done; by rewrite lookup_singleton_ne).
  rewrite !matches_insert
    by (rewrite ?lookup_insert_ne by done; by rewrite lookup_singleton_ne).
  rewrite matches_singleton, cond_gte_date, cond_lte_date. cbn [cond_holds].
  rewrite bson_eqb_bool, bson_eqb_str. tauto.
Qed.

(** X21.  The location route answers with stored, public alerts only,
    whose stored status is "active" and whose window has opened by the
    first clock read and not closed at the second. *)
Lemma nearby_alerts_restricted q w (a : doc) :
  a ∈ response_alerts (nearby_alerts B q w).1 →
  a ∈ w_docs w ∧ is_public a ∧ field a "status" = VStr "active" ∧
  valid_from_by a (clock B (w_clock_reads w)) ∧
  valid_until_at a (clock B (S (w_clock_reads w))).
Proof.
  rewrite nearby_alerts_run. cbn [fst].
  destruct (filter_wf _); [|by intros ?%elem_of_nil].
  destruct (paged _ _) as [l|] eqn:Hp; [|by intros ?%elem_of_nil].
  cbn. intros Ha. eapply paged_elem in Ha; [|done].
  apply elem_of_selected in Ha as [Hin Hm]. cbn in Hm.
  apply matches_nearby_filter in Hm. tauto.
Qed.

(** X22.  The location route answers with at most 50 alerts. *)
Lemma nearby_alerts_capped q w :
  (length (response_alerts (nearby_alerts B q w).1) ≤ 50)%nat.
Proof.
  rewrite nearby_alerts_run. cbn [fst].
  destruct (filter_wf _); [|cbn; lia].
  unfold paged; cbn. rewrite apply_limit_jz by done. cbn. rewrite length_take. lia.
Qed.


End Spatial.

(* ===================================================================== *)
(** ** Two scenarios on whatever geometry the store implements *)
(* ===================================================================== *)


Section SpatialScenarios.
Variable B : backend.
Import Scenario.

Lemma scenario_in_window (a : doc) from until (t1 t2 : Z) :
  field a "validFrom" = VDate from → field a "validUntil" = VDate until →
  (from ≤ t1)%Z → (t2 ≤ until)%Z →
  valid_from_by a t1 ∧ valid_until_at a t2.
Proof. intros Hf Hu H1 H2. split; eexists; eauto. Qed.

(** C3 at its failing input.  One public, active alert is stored, in
    Mumbai; the List query asks for alerts within 50 km of a point
    near Delhi.  Whenever the store measures Mumbai farther than 50 km
    from that point, the answer holds no alert, yet it reports
    [total = 1] and one page: the count is taken without the spatial
    condition. *)
Theorem list_total_ignores_location :
  (50 < distance_km B (771 # 10, 287 # 10) (728777 # 10000, 19076 # 1000))%Q →
  (jan1 ≤ clock B 0 ≤ jan10)%Z →
  (list_alerts B near_delhi (store_of [mumbai_flood])).1
  = AlertList [] {| current := jz 1; pages := jz 1; total := 1 |}.
Proof.
  intros Hfar [Hfrom Huntil].
  rewrite list_alerts_run. cbn zeta.
  change (w_clock_reads (store_of [mumbai_flood])) with 0%nat.
  change (w_docs (store_of [mumbai_flood])) with [mumbai_flood].
  set (f := list_filter_at near_delhi (clock B 0)).
  assert (matches B f mumbai_flood = true) as Hm.
  { apply (matches_active_filter B near_delhi); [done|].
    split; [by vm_compute|]. do 2 (split; [by intros s [=]|]).
    split; [by vm_compute|]. by apply (scenario_in_window _ jan1 jan10). }
  assert (q_conditions (list_query_of near_delhi f)
          = <["location" := center_sphere (NumLit (287 # 10)) (NumLit (771 # 10)) (NumLit 50)]> f)
    as Hq by done.
  assert (matches B (q_conditions (list_query_of near_delhi f)) mumbai_flood = false) as Hg.
  { apply not_true_is_false. rewrite Hq.
    rewrite matches_insert by apply list_filter_at_location.
    rewrite center_sphere_holds. intros [(p & Hp & Hd) _].
    vm_compute in Hp. injection Hp as <-.
    exact (Qlt_not_le _ _ Hfar Hd). }
  assert (filter_wf (q_conditions (list_query_of near_delhi f)) = true) as Hwf.
  { rewrite Hq. apply filter_wf_insert; [by vm_compute|]. apply list_filter_at_wf. }
  rewrite Hwf. unfold selected. cbn [w_docs store_of List.filter]. rewrite Hg, Hm.
  rewrite paged_defaults by done. reflexivity.
Qed.

(** C4 at its failing input.  A critical and a medium alert, both
    public, active and located at the query point, are stored.
    Whenever the store puts that point within 50 km of itself, the
    location route answers with the medium alert first and the
    critical one last: the severity strings are compared as text,
    where "medium" comes after "critical". *)
Theorem nearby_orders_severity_as_text :
  (distance_km B (77209 # 1000, 286139 # 10000) (77209 # 1000, 286139 # 10000) <= 50)%Q →
  (jan1 ≤ clock B 0)%Z → (clock B 1 ≤ jan10)%Z →
  (nearby_alerts B at_delhi (store_of [critical_slide; medium_flood])).1
  = NearbyAlerts [medium_flood; critical_slide] ∧
  severity_level (field medium_flood "severity") = Some 1%nat ∧
  severity_level (field critical_slide "severity") = Some 3%nat ∧
  bson_compare (field medium_flood "severity") (field critical_slide "severity") = Gt.
Proof.
  intros Hnear Hfrom Huntil. split; [|repeat split; vm_refl].
  rewrite nearby_alerts_run. cbn zeta. cbn [fst].
  change (w_clock_reads (store_of [critical_slide; medium_flood])) with 0%nat.
  set (qr := nearby_query_at at_delhi (clock B 0) (clock B 1)).
  assert (∀ a, a = critical_slide ∨ a = medium_flood →
               matches B (q_conditions qr) a = true) as Hm.
  { intros a Ha. apply matches_nearby_filter.
    assert (geo_point (field a "location") = Some (77209 # 1000, 286139 # 10000)) as Hp
      by (by destruct Ha as [-> | ->]; vm_compute).
    split; [by destruct Ha as [-> | ->]; vm_compute|].
    split; [by destruct Ha as [-> | ->]; vm_compute|].
    split; [apply center_sphere_holds; by eauto|].
    split; [|split; [|split; by intros s [=]]].
    - exists jan1. split; [by destruct Ha as [-> | ->]; vm_compute|done].
    - exists jan10. split; [by destruct Ha as [-> | ->]; vm_compute|done]. }
  assert (filter_wf (q_conditions qr) = true) as Hwf.
  { cbn. unfold nearby_literal. by repeat (apply filter_wf_insert; [by vm_compute|]). }
  rewrite Hwf. unfold selected.
  change (w_docs (store_of [critical_slide; medium_flood]))
    with [critical_slide; medium_flood].
  cbn [List.filter]. rewrite !Hm by auto.
  vm_refl.
Qed.

End SpatialScenarios.

(* ===================================================================== *)
(** ** Paging parameters *)
(* ===================================================================== *)

Section Paging.
Variable B : backend.

Lemma as_integer_eq (x : Q) (z : Z) : (x == inject_Z z)%Q → as_integer (JNum x) = Some z.
Proof.
  intros H. unfold as_integer.
  rewrite (Qfloor_comp _ _ H), Qfloor_Z, (Qeq_eq_bool _ _ H). done.
Qed.

Lemma ceil_div_spec (t n : Z) :
  (0 < n)%Z → (n * (ceil_div t n - 1) < t ≤ n * ceil_div t n)%Z.
Proof.
  intros Hn. unfold ceil_div.
  pose proof (Z.div_mod (- t) n ltac:(lia)) as Hd.
  pose proof (Z.mod_pos_bound (- t) n Hn) as Hm. nia.
Qed.

Lemma js_ceil_div (t n : Z) :
  (0 < n)%Z → js_ceil (js_div (jz t) (jz n)) = jz (ceil_div t n).
Proof.
  intros Hn. unfold js_div, jz, jq, js_ceil, q_is_zero. cbn [Qnum inject_Z].
  destruct (Z.eqb_spec n 0); [lia|]. unfold jz. do 2 f_equal.
  unfold Qceiling, ceil_div. f_equal. rewrite Zdiv_Qdiv. apply Qfloor_comp.
  rewrite Qred_correct, inject_Z_opp. unfold Qdiv. ring.
Qed.

Lemma skip_of_page (p n : Z) :
  as_integer (js_mul (js_sub (jz p) (jz 1)) (jz n)) = Some ((p - 1) * n)%Z.
Proof.
  unfold js_mul, js_sub, jz, jq. apply as_integer_eq.
  rewrite !Qred_correct, inject_Z_mult. unfold Z.sub.
  rewrite inject_Z_plus, inject_Z_opp. unfold Qminus. reflexivity.
Qed.

Lemma limit_of_param (n : Z) : as_integer (js_mul (jz n) (jz 1)) = Some n.
Proof.
  unfold js_mul, jz, jq. apply as_integer_eq.
  rewrite Qred_correct, <- inject_Z_mult. by rewrite Z.mul_1_r.
Qed.

Lemma paged_given q f (n p : Z) (l : list doc) :
  (0 < n)%Z → (0 < p)%Z →
  lq_limit q = Some (NumLit (inject_Z n)) → lq_page q = Some (NumLit (inject_Z p)) →
  paged (list_query_of q f) l
  = Some (take (Z.to_nat n) (drop (Z.to_nat ((p - 1) * n)) l)).
Proof.
  intros Hn Hp Hl Hpg. unfold paged, list_query_of. rewrite Hl, Hpg.
  cbn [q_skip q_limit default from_option to_number id].
  change (JNum (inject_Z n)) with (jz n). change (JNum (inject_Z p)) with (jz p).
  unfold apply_skip, apply_limit. rewrite skip_of_page, limit_of_param.
  destruct (Z.leb_spec 0 ((p - 1) * n)); [|nia]. cbn.
  destruct (Z.eqb_spec n 0); [lia|]. by rewrite Z.abs_eq by lia.
Qed.

(** C5, as the code has it.  An absent [limit] or [page] takes its
    default (20 and 1): the answer is the one for the query that spells
    the defaults out.  A supplied value is applied as given, not
    replaced: for whole numbers [n > 0] and [p > 0] the answer is the
    [n] alerts that follow the first [(p - 1) * n] selected ones, with
    page number [p] and page count [ceil(total / n)]. *)
Theorem list_paging_applied_as_given (q : list_query) (w : world) (n p : Z) :
  (0 < n)%Z → (0 < p)%Z →
  let given := with_paging q (Some (NumLit (inject_Z n))) (Some (NumLit (inject_Z p))) in
  let f := list_filter_at given (clock B (w_clock_reads w)) in
  let total := length (List.filter (matches B f) (w_docs w)) in
  filter_wf (q_conditions (list_query_of given f)) = true →
  list_alerts B (with_paging q None None) w
  = list_alerts B (with_paging q (Some (NumLit 20)) (Some (NumLit 1))) w ∧
  (list_alerts B given w).1
  = AlertList
      (take (Z.to_nat n) (drop (Z.to_nat ((p - 1) * n)) (selected B (list_query_of given f) w)))
      {| current := jz p; pages := jz (ceil_div (Z.of_nat total) n); total := total |}.
Proof.
  intros Hn Hp given f total Hwf. split; [done|].
  rewrite list_alerts_run. cbn zeta. fold f. rewrite Hwf.
  rewrite (paged_given given f n p) by done. cbn [fst].
  cbn [lq_page lq_limit given with_paging default from_option id parseInt to_number].
  change (JNum (inject_Z n)) with (jz n). rewrite js_ceil_div by done.
  cbn [Qnum Qden inject_Z]. by rewrite Z.quot_1_r.
Qed.

End Paging.

(** C5 as claimed fails.  With [limit=0] the handler does not fall back
    to 20: the store is asked for an unlimited page and the page count
    comes out as [total / 0], infinite, where the default would report
    one page.  With [page=0] the handler asks the store to skip a
    negative number of alerts and the request fails. *)
Lemma list_paging_not_coerced :
  let w := Scenario.store_of [Scenario.critical_slide] in
  (list_alerts Scenario.demo (with_paging Scenario.any_list (Some (NumLit 0)) None) w).1
  = AlertList [Scenario.critical_slide] {| current := jz 1; pages := JInf false; total := 1 |} ∧
  (list_alerts Scenario.demo (with_paging Scenario.any_list None None) w).1
  = AlertList [Scenario.critical_slide] {| current := jz 1; pages := jz 1; total := 1 |} ∧
  (list_alerts Scenario.demo (with_paging Scenario.any_list None (Some (NumLit 0))) w).1
  = list_failure.
Proof. cbv zeta. repeat split; vm_refl. Qed.

Lemma list_paging_applied_as_given_witness :
  let q := with_paging Scenario.any_list (Some (NumLit (inject_Z 1))) (Some (NumLit (inject_Z 2))) in
  let w := Scenario.store_of [Scenario.medium_flood; Scenario.critical_slide] in
  ((0 < 1)%Z ∧ (0 < 2)%Z) ∧
  (list_alerts Scenario.demo q w).1
  = AlertList [Scenario.medium_flood] {| current := jz 2; pages := jz 2; total := 2 |}.
Proof.
  split; [split; reflexivity|].
  exact (proj2 (list_paging_applied_as_given Scenario.demo Scenario.any_list
    (Scenario.store_of [Scenario.medium_flood; Scenario.critical_slide]) 1 2
    eq_refl eq_refl eq_refl)).
Defined.

(* ===================================================================== *)
(** ** Statistics *)
(* ===================================================================== *)

Section Statistics.
Variable B : backend.

(** The aggregation reads the clock twice: the active facet is tested
    against the first reading, the seven-day window starts from the
    second. *)
Lemma stats_handler_run r w :
  stats_handler B r w =
  (Overview
     {| totalAlerts := count_stage (w_docs w);
        activeAlerts :=
          count_stage (List.filter (matches B (active_match (clock B (w_clock_reads w)))) (w_docs w));
        alertsByType := group_count "type" (w_docs w);
        alertsBySeverity := group_count "severity" (w_docs w);
        recentAlerts :=
          count_stage (List.filter
            (matches B (recent_match (clock B (S (w_clock_reads w)) - seven_days))) (w_docs w)) |},
   advanced 2 1 w).
Proof. done. Qed.

End Statistics.

(** C6 at its failing input.  The clock advances by one millisecond
    between two reads and the only alert was created exactly seven days
    before the captured [now].  Against [now] the alert is both active
    and recent, yet the answer counts it as active and not as recent:
    the recency window was taken from a second clock read. *)
Theorem stats_recent_window_reads_clock_again :
  let w := Scenario.store_of [Scenario.week_old] in
  let now := clock Scenario.demo 0 in
  matches Scenario.demo (active_match now) Scenario.week_old = true ∧
  matches Scenario.demo (recent_match (now - seven_days)) Scenario.week_old = true ∧
  (stats_overview Scenario.demo (Scenario.call (Some Scenario.admin) 0 VNull) w).1
  = Overview {| totalAlerts := [1%nat]; activeAlerts := [1%nat];
                alertsByType := [(VStr "flood", 1%nat)];
                alertsBySeverity := [(VStr "low", 1%nat)];
                recentAlerts := [] |}.
Proof. cbv zeta. repeat split; vm_refl. Qed.

(* ===================================================================== *)
(** ** The gate in front of create, update and delete *)
(* ===================================================================== *)

Section Gate.
Variable B : backend.

Lemma gate_refuses (ms : list middleware) handler r w :
  not_admin r →
  route (protect :: authorize ["admin"] :: ms) handler r w = (forbidden, w).
Proof.
  intros Hr. unfold route, protect.
  destruct (req_caller r) as [u|] eqn:Hu; [|done].
  unfold authorize; cbn [req_user].
  rewrite bool_decide_eq_false_2; [done|].
  rewrite list_elem_of_singleton. by apply Hr.
Qed.

Lemma gate_admits (ms : list middleware) handler r w u :
  req_caller r = Some u → user_role u = "admin" →
  route (protect :: authorize ["admin"] :: ms) handler r w
  = route ms handler
      {| req_caller := req_caller r; req_user := Some u;
         req_id := req_id r; req_body := req_body r |} w.
Proof.
  intros Hu Hrole. cbn [route]. unfold protect at 1. rewrite Hu.
  unfold authorize at 1; cbn [req_user]. rewrite Hrole.
  by rewrite bool_decide_eq_true_2 by (by apply list_elem_of_singleton).
Qed.

(** C7.  When the caller identity is absent or lacks the admin role,
    Create, Update and Delete each answer Forbidden and leave the world
    as it was: no record created, changed or removed, and not a single
    store operation issued. *)
Theorem mutations_forbidden_without_admin (r : request) (w : world) :
  not_admin r →
  post_alert B r w = (forbidden, w) ∧
  put_alert B r w = (forbidden, w) ∧
  delete_alert r w = (forbidden, w).
Proof. intros Hr. repeat split; by apply gate_refuses. Qed.

End Gate.

Lemma mutations_forbidden_without_admin_witness :
  not_admin (Scenario.call None 5 (VObj ∅)) ∧
  delete_alert (Scenario.call None 5 (VObj ∅)) (Scenario.store_of [Scenario.critical_slide])
  = (forbidden, Scenario.store_of [Scenario.critical_slide]).
Proof.
  assert (not_admin (Scenario.call None 5 (VObj ∅))) as H by (by intros u [=]).
  split; [exact H|].
  apply (mutations_forbidden_without_admin Scenario.demo
    (Scenario.call None 5 (VObj ∅)) (Scenario.store_of [Scenario.critical_slide]) H).
Defined.

(** The gate is a gate, not a wall: the same Delete by an admin removes
    the record. *)
Lemma admin_delete_removes_record :
  let w := Scenario.store_of [Scenario.critical_slide; Scenario.medium_flood] in
  let after := delete_alert (Scenario.call (Some Scenario.admin) 5 (VObj ∅)) w in
  after.1 = Deleted ∧ w_docs after.2 = [Scenario.medium_flood] ∧
  (delete_alert (Scenario.call (Some Scenario.resident) 5 (VObj ∅)) w).1 = forbidden.
Proof. cbv zeta. repeat split; vm_refl. Qed.

(* ===================================================================== *)
(** ** PUT /api/alerts/:id: what an update changes *)
(* ===================================================================== *)

Section Update.
Variable B : backend.









End Update.

(* ===================================================================== *)
(** ** The theorems at work on the scenario data *)
(* ===================================================================== *)

Lemma list_total_ignores_location_witness :
  (50 < distance_km Scenario.demo (771 # 10, 287 # 10) (728777 # 10000, 19076 # 1000))%Q ∧
  (list_alerts Scenario.demo Scenario.near_delhi
     (Scenario.store_of [Scenario.mumbai_flood])).1
  = AlertList [] {| current := jz 1; pages := jz 1; total := 1 |}.
Proof.
  assert (50 < distance_km Scenario.demo (771 # 10, 287 # 10)
                (728777 # 10000, 19076 # 1000))%Q as Hfar by (vm_compute; reflexivity).
  split; [exact Hfar|].
  apply (list_total_ignores_location Scenario.demo Hfar).
  split; vm_compute; discriminate.
Defined.

Lemma nearby_orders_severity_as_text_witness :
  (distance_km Scenario.demo (77209 # 1000, 286139 # 10000) (77209 # 1000, 286139 # 10000)
     <= 50)%Q ∧
  (nearby_alerts Scenario.demo Scenario.at_delhi
     (Scenario.store_of [Scenario.critical_slide; Scenario.medium_flood])).1
  = NearbyAlerts [Scenario.medium_flood; Scenario.critical_slide].
Proof.
  assert (distance_km Scenario.demo (77209 # 1000, 286139 # 10000)
            (77209 # 1000, 286139 # 10000) <= 50)%Q as Hnear by (vm_compute; discriminate).
  split; [exact Hnear|].
  apply (nearby_orders_severity_as_text Scenario.demo Hnear); vm_compute; discriminate.
Defined.




(** What the same update did to the radius and the address: the radius
    is the old 50 km, the address is gone. *)
Lemma relocate_keeps_radius_drops_address :
  let r := Scenario.call (Some Scenario.admin) 5 Scenario.relocate in
  let w := Scenario.store_of [Scenario.critical_slide] in
  ∃ d', (put_alert Scenario.demo r w).1 = AlertDoc 200 d' ∧
        get_prop (field Scenario.critical_slide "location") "address" = VStr "Ridge Road" ∧
        get_prop (field d' "location") "address" = VUndef ∧
        get_prop (field d' "location") "radius" = VNum 50.
Proof.
  cbv zeta. eexists. split; [vm_compute; reflexivity|].
  repeat split; vm_refl.
Qed.

(* ===================================================================== *)
(** ** GET /api/alerts/:id: the view counter *)
(* ===================================================================== *)

Section SingleRead.
Variable B : backend.

Lemma bson_eqb_object_id v i : bson_eqb v (VId i) = true ↔ v = VId i.
Proof.
  split.
  - destruct v as [| | | | | |j| |]; try done.
    unfold bson_eqb, bson_compare; cbn.
    destruct (Nat.compare_spec j i); try done. by intros _; f_equal.
  - intros ->. unfold bson_eqb, bson_compare; cbn. by rewrite Nat.compare_refl.
Qed.

Lemma has_id_spec id (d : doc) : has_id id d = true ↔ field d "_id" = VId id.
Proof. apply bson_eqb_object_id. Qed.

Lemma find_none_spec id (l : list doc) :
  List.find (has_id id) l = None ↔ ∀ d, d ∈ l → field d "_id" ≠ VId id.
Proof.
  split.
  - intros H d Hd%list_elem_of_In Hid%has_id_spec.
    pose proof (find_none _ _ H d Hd). congruence.
  - intros H. destruct (List.find (has_id id) l) as [d|] eqn:Hf; [|done].
    apply find_some in Hf as [Hd%list_elem_of_In Hid%has_id_spec]. by destruct (H d).
Qed.










End SingleRead.




(* ===================================================================== *)
(** ** The read routes: what they touch, filter, order and page *)
(* ===================================================================== *)

Section ReadRoutes.
Variable B : backend.

Lemma stats_overview_world r w :
  ∃ resp n m, stats_overview B r w = (resp, advanced n m w).
Proof.
  unfold stats_overview. cbn [route]. unfold protect.
  destruct (req_caller r); [|by exists forbidden, 0%nat, 0%nat; destruct w].
  unfold authorize. cbn [req_user].
  destruct (bool_decide _); [|by exists forbidden, 0%nat, 0%nat; destruct w].
  rewrite stats_handler_run. eauto.
Qed.

(** X4.  The List, location and statistics routes never write: whatever
    the request and whatever the answer, the collection and the id
    counter are afterwards what they were. *)
Theorem read_routes_never_write (q : list_query) (nq : nearby_query) (r : request) (w : world) :
  (w_docs (list_alerts B q w).2 = w_docs w ∧
   w_next_id (list_alerts B q w).2 = w_next_id w) ∧
  (w_docs (nearby_alerts B nq w).2 = w_docs w ∧
   w_next_id (nearby_alerts B nq w).2 = w_next_id w) ∧
  (w_docs (stats_overview B r w).2 = w_docs w ∧
   w_next_id (stats_overview B r w).2 = w_next_id w).
Proof.
  split; [|split].
  - rewrite list_alerts_run. cbn zeta. by destruct (if filter_wf _ then _ else _).
  - by rewrite nearby_alerts_run.
  - by destruct (stats_overview_world r w) as (resp & n & m & ->).
Qed.

Lemma matches_base_filter q (a : doc) :
  matches B (list_base_filter q) a = true ↔
  is_public a ∧
  text_param_ok (lq_type q) (field a "type") ∧
  text_param_ok (lq_severity q) (field a "severity") ∧
  text_param_ok (Some (default "active" (lq_status q))) (field a "status").
Proof.
  unfold list_base_filter, is_public.
  rewrite matches_add_text
    by (rewrite !add_text_lookup_ne by done; by rewrite lookup_singleton_ne).
  rewrite matches_add_text by (rewrite !add_text_lookup_ne by done; by rewrite lookup_singleton_ne).
  rewrite matches_add_text by (by rewrite lookup_singleton_ne).
  rewrite matches_singleton. cbn [cond_holds]. rewrite bson_eqb_bool. tauto.
Qed.

(** X5.  When [status] is given and is not "active", the List filter
    reads no clock and tests no validity window: an alert matches iff
    it is public, agrees with the type and severity parameters and,
    unless [status] is the empty string, has exactly that stored
    status.  An empty [status] drops the status test altogether. *)
Theorem list_other_status_skips_window (q : list_query) (w : world) (s : string) (a : doc) :
  lq_status q = Some s → s ≠ "active" →
  list_filter B q w = (Ok (list_base_filter q), w) ∧
  (matches B (list_base_filter q) a = true ↔
   is_public a ∧
   text_param_ok (lq_type q) (field a "type") ∧
   text_param_ok (lq_severity q) (field a "severity") ∧
   (s ≠ EmptyString → field a "status" = VStr s)).
Proof.
  intros Hs Hne. split.
  - unfold list_filter. rewrite Hs. cbn [default from_option id].
    by destruct (String.eqb_spec s "active").
  - rewrite matches_base_filter, Hs. cbn [default from_option id].
    unfold text_param_ok at 3. split.
    + intros (? & ? & ? & H). repeat split; try done. intros Hs'. by apply H.
    + intros (? & ? & ? & H). repeat split; try done. by intros s' [= <-].
Qed.

Lemma list_query_without_location q f :
  truthy_num (lq_lat q) && truthy_num (lq_lng q) = false →
  list_query_of q f = list_query_of (without_location q) f.
Proof.
  intros H. unfold list_query_of. cbn [without_location lq_lat lq_lng lq_limit lq_page lq_sort].
  destruct (lq_lat q) as [lat|], (lq_lng q) as [lng|]; try done. by rewrite H.
Qed.

(** X6.  A location is used only when both [lat] and [lng] are
    non-empty: with either one missing or empty the handler answers
    exactly as if no location parameter had been sent. *)
Theorem list_half_location_ignored (q : list_query) (w : world) :
  truthy_num (lq_lat q) && truthy_num (lq_lng q) = false →
  list_alerts B q w = list_alerts B (without_location q) w.
Proof.
  intros H. rewrite !list_alerts_run. cbn zeta.
  change (list_filter_at (without_location q)) with (list_filter_at q).
  change (list_clock_reads (without_location q)) with (list_clock_reads q).
  by rewrite <- list_query_without_location.
Qed.

Lemma paged_length q (l l' : list doc) :
  paged q l = Some l' → (length l' ≤ length l)%nat.
Proof.
  unfold paged. intros H.
  destruct (from_option _ _ (q_skip q)) as [sk|] eqn:Hs; [|done]. cbn in H.
  assert (length sk ≤ length l)%nat.
  { destruct (q_skip q) as [n|]; cbn in Hs; [|by injection Hs as <-].
    unfold apply_skip in Hs. destruct (as_integer n); [|done].
    destruct (_ <=? _)%Z; [|done]. injection Hs as <-. rewrite length_drop. lia. }
  assert (length l' ≤ length sk)%nat; [|lia].
  destruct (q_limit q) as [n|]; cbn in H; [|by injection H as <-].
  unfold apply_limit in H. destruct (as_integer n); [|done].
  destruct (_ =? _)%Z; injection H as <-; [done|]. rewrite length_take. lia.
Qed.

(** X7.  Without a usable location the page never holds more alerts
    than [total] reports, whatever [limit] and [page] are. *)
Theorem list_page_within_total (q : list_query) (w w' : world) (l : list doc) (p : pagination) :
  truthy_num (lq_lat q) && truthy_num (lq_lng q) = false →
  list_alerts B q w = (AlertList l p, w') →
  (length l ≤ total p)%nat.
Proof.
  intros Hloc. rewrite list_alerts_run. cbn zeta.
  destruct (filter_wf _); [|done].
  destruct (paged _ _) as [l0|] eqn:Hp; [|done]. intros [= <- <- <-]. cbn [total].
  apply paged_length in Hp. unfold selected in Hp. rewrite length_sort_docs in Hp.
  assert (q_conditions (list_query_of q (list_filter_at q (clock B (w_clock_reads w))))
          = list_filter_at q (clock B (w_clock_reads w))) as Hq.
  { unfold list_query_of. cbn.
    destruct (lq_lat q) as [lat|], (lq_lng q) as [lng|]; try done. by rewrite Hloc. }
  by rewrite Hq in Hp.
Qed.

Lemma fetch_pages_step q n k w :
  fetch_pages B q n (S k) w =
  (((fetch_pages B q n k w).1
     ++ response_alerts (list_alerts B (page_request q n (Z.of_nat (S k)))
                           (fetch_pages B q n k w).2).1)%list,
   (list_alerts B (page_request q n (Z.of_nat (S k))) (fetch_pages B q n k w).2).2).
Proof.
  cbn [fetch_pages]. destruct (fetch_pages B q n k w) as [seen w1]. cbn [fst snd].
  by destruct (list_alerts B _ w1).
Qed.

(** X8.  Paging composes.  While the clock stands still and the store
    accepts the query, fetching pages [1 .. k] of [n > 0] alerts one
    after the other yields, in order, the first [k * n] alerts the
    query selects; once [k * n] reaches their number the pages together
    are exactly the selected alerts, none twice and none missing.  (The
    store is taken to order alerts with equal sort keys the same way on
    every request, as [sort_docs] does.) *)
Theorem pages_concatenate (q : list_query) (n : Z) (k : nat) (w : world) :
  (0 < n)%Z →
  (∀ i j, clock B i = clock B j) →
  let qr := list_query_of q (list_filter_at q (clock B 0)) in
  filter_wf (q_conditions qr) = true →
  (fetch_pages B q n k w).1 = take (k * Z.to_nat n) (selected B qr w) ∧
  w_docs (fetch_pages B q n k w).2 = w_docs w ∧
  ((length (selected B qr w) ≤ k * Z.to_nat n)%nat →
   (fetch_pages B q n k w).1 = selected B qr w).
Proof.
  intros Hn Hclock qr Hwf.
  assert ((fetch_pages B q n k w).1 = take (k * Z.to_nat n) (selected B qr w) ∧
          w_docs (fetch_pages B q n k w).2 = w_docs w) as [Hall Hdocs].
  { induction k as [|k [IH1 IH2]]; [done|].
    rewrite fetch_pages_step. set (w1 := (fetch_pages B q n k w).2) in *.
    rewrite list_alerts_run. cbn zeta.
    rewrite (Hclock (w_clock_reads w1) 0%nat).
    change (list_filter_at (page_request q n (Z.of_nat (S k))) (clock B 0))
      with (list_filter_at q (clock B 0)).
    set (qp := list_query_of (page_request q n (Z.of_nat (S k))) (list_filter_at q (clock B 0))).
    assert (q_conditions qp = q_conditions qr) as Hc by done.
    assert (selected B qp w1 = selected B qr w) as Hsel.
    { unfold selected. rewrite Hc, IH2. done. }
    rewrite Hc, Hwf, Hsel.
    unfold qp. rewrite (paged_given (page_request q n (Z.of_nat (S k))) _ n (Z.of_nat (S k)))
      by (done || lia).
    cbn [fst snd response_alerts]. split; [|by rewrite <- IH2].
    rewrite IH1.
    replace (Z.to_nat ((Z.of_nat (S k) - 1) * n)) with (k * Z.to_nat n)%nat by nia.
    rewrite take_take_drop. f_equal. lia. }
  split; [done|]. split; [done|]. intros Hlen. rewrite Hall. by apply take_ge.
Qed.

End ReadRoutes.

(* ===================================================================== *)
(** ** The order of the answers *)
(* ===================================================================== *)

Section Ordering.
Variable B : backend.

Lemma bson_compare_antisym a b : bson_compare b a = CompOpp (bson_compare a b).
Proof.
  unfold bson_compare. rewrite (Nat.compare_antisym (bson_rank a) (bson_rank b)).
  destruct (Nat.compare (bson_rank a) (bson_rank b)) eqn:Hr; [|done|done].
  destruct a, b; cbn in Hr |- *; try done.
  - by destruct b0, b.
  - by rewrite <- Qcompare_antisym.
  - apply String.compare_antisym.
  - apply Z.compare_antisym.
  - apply Nat.compare_antisym.
Qed.

Lemma doc_compare_antisym s (a b : doc) :
  doc_compare s b a = CompOpp (doc_compare s a b).
Proof.
  induction s as [|[k desc] s IH]; [done|]. cbn.
  rewrite (bson_compare_antisym (field a k) (field b k)).
  destruct (bson_compare (field a k) (field b k)); cbn; [done| |]; by destruct desc.
Qed.

Lemma doc_leb_total s (a b : doc) : doc_leb s a b = false → doc_leb s b a = true.
Proof.
  unfold doc_leb. rewrite (doc_compare_antisym s a b).
  by destruct (doc_compare s a b).
Qed.

Lemma ordered_nil s : ordered s [].
Proof. by intros i a b H. Qed.

Lemma ordered_singleton s (x : doc) : ordered s [x].
Proof. intros [|i] a b Ha Hb; by cbn in *. Qed.

Lemma ordered_cons s (x y : doc) (l : list doc) :
  ordered s (x :: y :: l) ↔ doc_leb s x y = true ∧ ordered s (y :: l).
Proof.
  split.
  - intros H. split; [by apply (H 0%nat)|]. intros i a b Ha Hb. by apply (H (S i)).
  - intros [Hxy H] [|i] a b Ha Hb; cbn in *; [congruence|]. by apply (H i).
Qed.

Lemma ordered_insert_sorted s (x : doc) (l : list doc) :
  ordered s l → ordered s (insert_sorted s x l).
Proof.
  induction l as [|y l IH]; intros Hl; [apply ordered_singleton|]. cbn.
  destruct (doc_leb s y x) eqn:Hyx.
  - destruct l as [|z l].
    + cbn. apply ordered_cons. split; [done|apply ordered_singleton].
    + apply ordered_cons in Hl as [Hyz Hl]. specialize (IH Hl). cbn in IH |- *.
      destruct (doc_leb s z x); apply ordered_cons; by split.
  - apply ordered_cons. split; [by apply doc_leb_total|done].
Qed.

Lemma ordered_sort_docs s (l : list doc) : ordered s (sort_docs s l).
Proof.
  unfold sort_docs. induction (rev l) as [|x k IH]; [apply ordered_nil|].
  cbn. by apply ordered_insert_sorted.
Qed.

Lemma ordered_take s n (l : list doc) : ordered s l → ordered s (take n l).
Proof.
  intros H i a b [Ha _]%lookup_take_Some [Hb _]%lookup_take_Some. by apply (H i).
Qed.

Lemma ordered_drop s n (l : list doc) : ordered s l → ordered s (drop n l).
Proof.
  intros H i a b Ha Hb. rewrite lookup_drop in Ha, Hb.
  apply (H (n + i)%nat); [done|]. by rewrite <- Nat.add_succ_r.
Qed.

Lemma ordered_paged q (l l' : list doc) :
  paged q l = Some l' → ordered (q_sort q) l → ordered (q_sort q) l'.
Proof.
  unfold paged. intros H Hl.
  destruct (from_option _ _ (q_skip q)) as [sk|] eqn:Hs; [|done]. cbn in H.
  assert (ordered (q_sort q) sk) as Hsk.
  { destruct (q_skip q) as [n|]; cbn in Hs; [|by injection Hs as <-].
    unfold apply_skip in Hs. destruct (as_integer n); [|done].
    destruct (_ <=? _)%Z; [|done]. injection Hs as <-. by apply ordered_drop. }
  destruct (q_limit q) as [n|]; cbn in H; [|by injection H as <-].
  unfold apply_limit in H. destruct (as_integer n); [|done].
  destruct (_ =? _)%Z; injection H as <-; [done|]. by apply ordered_take.
Qed.

Lemma newest_first_spec (a b : doc) :
  doc_leb [("createdAt", true)] a b = true ↔
  bson_compare (field a "createdAt") (field b "createdAt") ≠ Lt.
Proof.
  unfold doc_leb. cbn.
  destruct (bson_compare (field a "createdAt") (field b "createdAt")); cbn; split; done.
Qed.

(** X9.  The List answer follows the sort specification, and with no
    [sort] parameter it is newest first: of two neighbouring alerts of
    the page the earlier one never has the smaller [createdAt]. *)
Theorem list_answer_follows_sort (q : list_query) (w : world) :
  ordered (default [("createdAt", true)] (lq_sort q)) (response_alerts (list_alerts B q w).1) ∧
  (lq_sort q = None →
   ∀ i a b, response_alerts (list_alerts B q w).1 !! i = Some a →
            response_alerts (list_alerts B q w).1 !! S i = Some b →
            bson_compare (field a "createdAt") (field b "createdAt") ≠ Lt).
Proof.
  assert (ordered (default [("createdAt", true)] (lq_sort q))
            (response_alerts (list_alerts B q w).1)) as H.
  { rewrite list_alerts_run. cbn zeta.
    destruct (filter_wf _); [|apply ordered_nil].
    destruct (paged _ _) as [l|] eqn:Hp; [|apply ordered_nil]. cbn.
    eapply (ordered_paged _ _ _ Hp). apply ordered_sort_docs. }
  split; [done|]. intros Hs i a b Ha Hb. rewrite Hs in H.
  apply newest_first_spec. by apply (H i).
Qed.

(** X10.  The location answer is ordered by the severity text
    descending and, among equal severities, by [createdAt] descending:
    of two neighbouring alerts the earlier one never has the smaller
    severity in text order, and when their severities are equal it never
    has the smaller [createdAt]. *)
Theorem nearby_answer_follows_sort (q : nearby_query) (w : world) (i : nat) (a b : doc) :
  response_alerts (nearby_alerts B q w).1 !! i = Some a →
  response_alerts (nearby_alerts B q w).1 !! S i = Some b →
  bson_compare (field a "severity") (field b "severity") ≠ Lt ∧
  (bson_compare (field a "severity") (field b "severity") = Eq →
   bson_compare (field a "createdAt") (field b "createdAt") ≠ Lt).
Proof.
  assert (ordered nearby_sort (response_alerts (nearby_alerts B q w).1)) as H.
  { rewrite nearby_alerts_run. cbn zeta. cbn [fst].
    destruct (filter_wf _); [|apply ordered_nil].
    destruct (paged _ _) as [l|] eqn:Hp; [|apply ordered_nil]. cbn.
    apply (ordered_paged _ _ _ Hp). apply ordered_sort_docs. }
  intros Ha Hb. specialize (H i a b Ha Hb). revert H. unfold doc_leb, nearby_sort. cbn.
  destruct (bson_compare (field a "severity") (field b "severity")); cbn; [|done|done].
  destruct (bson_compare (field a "createdAt") (field b "createdAt")); cbn; by split.
Qed.

End Ordering.

(* ===================================================================== *)
(** ** Create, update and delete once the gate is passed *)
(* ===================================================================== *)

Section Mutations.
Variable B : backend.

Lemma gate_passes (ms : list middleware) handler r w user :
  admin_call r user →
  route (protect :: authorize ["admin"] :: ms) handler r w
  = route ms handler
      {| req_caller := req_caller r; req_user := Some user;
         req_id := req_id r; req_body := req_body r |} w.
Proof. intros [Hu Hrole]. by apply gate_admits. Qed.

Lemma gate_outcome (ms : list middleware) handler r w :
  (∃ user, admin_call r user) ∨
  route (protect :: authorize ["admin"] :: ms) handler r w = (forbidden, w).
Proof.
  destruct (req_caller r) as [u|] eqn:Hu.
  - destruct (decide (user_role u = "admin")) as [Hr|Hr]; [left; by exists u|].
    right. apply gate_refuses. intros u' Hu'. congruence.
  - right. apply gate_refuses. intros u' Hu'. congruence.
Qed.

Lemma remove_doc_length id (l : list doc) (a : doc) :
  List.find (has_id id) l = Some a → S (length (remove_doc id l)) = length l.
Proof.
  induction l as [|x l IH]; [done|]. cbn.
  destruct (has_id id x); [done|]. cbn. intros H. by rewrite IH.
Qed.

Lemma elem_of_remove_doc id (d : doc) (l : list doc) :
  has_id id d = false → d ∈ remove_doc id l ↔ d ∈ l.
Proof.
  intros Hd. induction l as [|x l IH]; [done|]. cbn.
  destruct (has_id id x) eqn:Hx; rewrite ?elem_of_cons; [|by rewrite IH].
  split; [by right|]. intros [->|?]; [congruence|done].
Qed.

Lemma remove_doc_unique id (l : list doc) :
  unique_ids l → ∀ d, d ∈ remove_doc id l → field d "_id" ≠ VId id.
Proof.
  unfold unique_ids. induction l as [|x l IH]; cbn; [by intros _ d ?%elem_of_nil|].
  intros [Hx Hl]%NoDup_cons d. destruct (has_id id x) eqn:Hid.
  - intros Hd Heq. apply has_id_spec in Hid. apply Hx.
    rewrite Hid, <- Heq. apply list_elem_of_In.
    apply (in_map (λ d : doc, field d "_id")). by apply list_elem_of_In.
  - intros [->|Hd]%elem_of_cons; [|by apply IH].
    intros Heq%has_id_spec. congruence.
Qed.



(** *** DELETE *)

Lemma delete_handler_cases r w :
  delete_handler r w =
  match List.find (has_id (req_id r)) (w_docs w) with
  | None => (not_found, advanced 0 1 w)
  | Some _ =>
      (Deleted,
       {| w_docs := remove_doc (req_id r) (w_docs w); w_next_id := w_next_id w;
          w_clock_reads := w_clock_reads w; w_store_ops := S (S (w_store_ops w)) |})
  end.
Proof.
  unfold delete_handler, try_catch, find_by_id, find_by_id_and_delete, mbind, M_bind, mret,
    M_ret, store_op, get_docs, put_docs. cbn.
  by destruct (List.find _ _).
Qed.

(** X11.  A Delete that answers success removed one document, the
    first one carrying the id: the collection is one shorter, every
    document with another id is still there, and when ids are unique no
    document with the id is left, so that repeating the Delete answers
    404. *)
Theorem delete_removes_exactly_that_alert (r : request) (w w' : world) :
  delete_alert r w = (Deleted, w') →
  w_docs w' = remove_doc (req_id r) (w_docs w) ∧
  S (length (w_docs w')) = length (w_docs w) ∧
  (∀ d, has_id (req_id r) d = false → d ∈ w_docs w' ↔ d ∈ w_docs w) ∧
  (unique_ids (w_docs w) →
   (∀ d, d ∈ w_docs w' → field d "_id" ≠ VId (req_id r)) ∧
   (delete_alert r w').1 = not_found).
Proof.
  intros Hdel.
  destruct (gate_outcome [] delete_handler r w) as [[user Hadm]|Hforb];
    [|unfold delete_alert in Hdel; rewrite Hforb in Hdel; by unfold forbidden in Hdel].
  pose proof Hdel as Hdel'. unfold delete_alert in Hdel'.
  rewrite (gate_passes _ _ _ _ _ Hadm) in Hdel'. cbn [route] in Hdel'.
  rewrite delete_handler_cases in Hdel'. cbn [req_id] in Hdel'.
  destruct (List.find _ _) as [a|] eqn:Hfind; [|done].
  injection Hdel' as <-. cbn [w_docs].
  split; [done|]. split; [by eapply remove_doc_length|].
  split; [by intros d Hd; apply elem_of_remove_doc|].
  intros Hu. pose proof (remove_doc_unique (req_id r) _ Hu) as Hgone.
  split; [done|]. unfold delete_alert.
  rewrite (gate_passes _ _ _ _ _ Hadm). cbn [route]. rewrite delete_handler_cases.
  cbn [req_id w_docs]. by apply find_none_spec in Hgone as ->.
Qed.

(** *** PUT *)




(** *** POST *)

Lemma create_handler_cases r w :
  create_handler B r w =
  match req_user r with
  | None => (create_failure, w)
  | Some user =>
      match get_prop (req_body r) "location" with
      | VUndef | VNull => (create_failure, w)
      | location =>
          let alertData : doc :=
            <["location" := VObj (
                <["radius" := js_or (get_prop location "radius") (VNum 50)]> (
                <["country" := get_prop location "country"]> (
                <["state" := get_prop location "state"]> (
                <["city" := get_prop location "city"]> (
                <["address" := get_prop location "address"]> (
                <["coordinates" := get_prop location "coordinates"]> (
                {[ "type" := VStr "Point" ]})))))))]> (
            <["createdBy" := VId (user_id user)]> (spread (req_body r))) in
          if schema_ok B alertData then
            let d := <["updatedAt" := VDate (clock B (w_clock_reads w))]> (
                     <["createdAt" := VDate (clock B (w_clock_reads w))]> (
                     <["_id" := VId (w_next_id w)]> alertData)) in
            (AlertDoc 201 d,
             {| w_docs := (w_docs w ++ [d])%list; w_next_id := S (w_next_id w);
                w_clock_reads := S (w_clock_reads w); w_store_ops := S (w_store_ops w) |})
          else (create_failure, advanced 0 1 w)
      end
  end.
Proof.
  unfold create_handler, try_catch, create, stamp_created, fresh_id, mbind, M_bind, mret,
    M_ret, lift_option, store_op, get_docs, put_docs, new_date, throw.
  destruct (req_user r) as [user|]; [|done]. cbn.
  destruct (get_prop (req_body r) "location"); try done; cbn; by destruct (schema_ok B _).
Qed.

Lemma post_alert_cases r w user :
  admin_call r user →
  post_alert B r w =
  if creation_ok B (req_body r)
  then create_handler B
         {| req_caller := req_caller r; req_user := Some user;
            req_id := req_id r; req_body := req_body r |} w
  else (Failure 400 "Validation error", w).
Proof.
  intros Hadm. unfold post_alert. rewrite (gate_passes _ _ _ _ _ Hadm).
  cbn [route]. unfold validateAlertCreation. cbn [req_body].
  by destruct (creation_ok B (req_body r)).
Qed.



(** X15.  A Create that does not answer 201 stored nothing and used up
    no id; in particular a body without a location makes the handler
    fail with 500 before any store operation. *)
Theorem create_failures_store_nothing (r : request) (w : world) :
  ((∀ d, (post_alert B r w).1 ≠ AlertDoc 201 d) →
   w_docs (post_alert B r w).2 = w_docs w ∧
   w_next_id (post_alert B r w).2 = w_next_id w) ∧
  (∀ user, admin_call r user → creation_ok B (req_body r) = true →
     get_prop (req_body r) "location" = VUndef ∨ get_prop (req_body r) "location" = VNull →
     post_alert B r w = (create_failure, w)).
Proof.
  split.
  - destruct (gate_outcome [validateAlertCreation B] (create_handler B) r w)
      as [[user Hadm]|Hforb]; [|unfold post_alert; by rewrite Hforb].
    rewrite (post_alert_cases _ _ _ Hadm).
    destruct (creation_ok B (req_body r)); [|done].
    rewrite create_handler_cases. cbn [req_user req_body].
    destruct (get_prop (req_body r) "location"); try done;
      (destruct (schema_ok B _); [|done]); cbn zeta; intros H; by destruct (H _ eq_refl).
  - intros user Hadm Hok Hloc. rewrite (post_alert_cases _ _ _ Hadm), Hok.
    rewrite create_handler_cases. cbn [req_user req_body]. by destruct Hloc as [-> | ->].
Qed.


End Mutations.

(* ===================================================================== *)
(** ** The statistics facets *)
(* ===================================================================== *)

Section Facets.
Variable B : backend.

Lemma bson_eqb_str_l s v : bson_eqb (VStr s) v = true → v = VStr s.
Proof.
  destruct v as [| | | |t| | | |]; try done.
  unfold bson_eqb, bson_compare; cbn.
  destruct (String.compare s t) eqn:E; try done.
  intros _. f_equal. symmetry. by apply String.compare_eq_iff.
Qed.

Lemma group_sum_cons k n groups : group_sum ((k, n) :: groups) = (n + group_sum groups)%nat.
Proof. done. Qed.

Lemma group_sum_bump key groups : group_sum (bump key groups) = S (group_sum groups).
Proof.
  induction groups as [|[k n] g IH]; [done|]. cbn [bump].
  destruct (bson_eqb k key); rewrite !group_sum_cons, ?IH; lia.
Qed.

Lemma group_sum_foldl k (l : list doc) acc :
  group_sum (foldl (λ acc d, bump (field d k) acc) acc l) = (group_sum acc + length l)%nat.
Proof.
  revert acc. induction l as [|d l IH]; intros acc; cbn [foldl length]; [lia|].
  rewrite IH, group_sum_bump. lia.
Qed.

Lemma count_for_bump t key groups :
  count_for (VStr t) (bump key groups)
  = (count_for (VStr t) groups + if bson_eqb key (VStr t) then 1 else 0)%nat.
Proof.
  unfold count_for. induction groups as [|[k n] g IH]; cbn.
  - destruct (bson_eqb key (VStr t)); cbn; lia.
  - destruct (bson_eqb k key) eqn:Hk; cbn.
    + destruct (bson_eqb k (VStr t)) eqn:Ht; cbn.
      * apply bson_eqb_str in Ht as ->. apply bson_eqb_str_l in Hk as ->.
        rewrite (proj2 (bson_eqb_str _ _) eq_refl). lia.
      * destruct (bson_eqb key (VStr t)) eqn:Hkey; [|by rewrite Nat.add_0_r].
        apply bson_eqb_str in Hkey as ->. congruence.
    + destruct (bson_eqb k (VStr t)) eqn:Ht; cbn; [|done].
      destruct (bson_eqb key (VStr t)) eqn:Hkey; [|lia].
      apply bson_eqb_str in Ht as ->. apply bson_eqb_str in Hkey as ->.
      by rewrite (proj2 (bson_eqb_str _ _) eq_refl) in Hk.
Qed.

Lemma count_for_foldl k t (l : list doc) acc :
  count_for (VStr t) (foldl (λ acc d, bump (field d k) acc) acc l)
  = (count_for (VStr t) acc + length (with_text k t l))%nat.
Proof.
  unfold with_text. revert acc. induction l as [|d l IH]; intros acc; cbn; [lia|].
  rewrite IH, count_for_bump. destruct (bson_eqb (field d k) (VStr t)); cbn; lia.
Qed.

Lemma bump_key_origin key groups (g : value * nat) :
  g ∈ bump key groups → g.1 = key ∨ ∃ g', g' ∈ groups ∧ g'.1 = g.1.
Proof.
  induction groups as [|[k n] gs IH]; cbn.
  - intros ->%list_elem_of_singleton. by left.
  - destruct (bson_eqb k key).
    + intros [->|Hg]%elem_of_cons; right.
      * exists (k, n). split; [by left|done].
      * exists g. split; [by right|done].
    + intros [->|Hg]%elem_of_cons.
      * right. exists (k, n). split; [by left|done].
      * destruct (IH Hg) as [?|(g' & Hg' & Heq)]; [by left|].
        right. exists g'. split; [by right|done].
Qed.

Lemma foldl_bump_keys k (l : list doc) acc (g : value * nat) :
  g ∈ foldl (λ acc d, bump (field d k) acc) acc l →
  (∃ g', g' ∈ acc ∧ g'.1 = g.1) ∨ ∃ d, d ∈ l ∧ g.1 = field d k.
Proof.
  revert acc. induction l as [|d l IH]; intros acc; cbn.
  - intros Hg. left. by exists g.
  - intros [(g' & Hg' & Heq)|(d' & Hd' & Heq)]%IH.
    + destruct (bump_key_origin _ _ _ Hg') as [Hk|(g'' & Hg'' & Heq')].
      * right. exists d. split; [by left|congruence].
      * left. exists g''. split; [done|congruence].
    + right. exists d'. split; [by right|done].
Qed.

Lemma stats_overview_admin r w user :
  admin_call r user →
  stats_overview B r w =
  (Overview
     {| totalAlerts := count_stage (w_docs w);
        activeAlerts :=
          count_stage (List.filter (matches B (active_match (clock B (w_clock_reads w)))) (w_docs w));
        alertsByType := group_count "type" (w_docs w);
        alertsBySeverity := group_count "severity" (w_docs w);
        recentAlerts :=
          count_stage (List.filter
            (matches B (recent_match (clock B (S (w_clock_reads w)) - seven_days))) (w_docs w)) |},
   advanced 2 1 w).
Proof.
  intros Hadm. unfold stats_overview. rewrite (gate_passes _ _ _ _ _ Hadm).
  cbn [route]. apply stats_handler_run.
Qed.

(** X17.  For an admin the statistics count the whole collection:
    [totalAlerts] holds the number of stored alerts (and is empty for an
    empty store), the per-type and per-severity counts each add up to
    that number, the count reported for a type or severity is the
    number of stored alerts carrying it, and no group is reported for a
    value that no stored alert has. *)
Theorem stats_facets_count_the_store (r : request) (w : world) (user : identity) :
  admin_call r user →
  ∃ s, stats_overview B r w = (Overview s, advanced 2 1 w) ∧
    totalAlerts s = (if w_docs w is [] then [] else [length (w_docs w)]) ∧
    group_sum (alertsByType s) = length (w_docs w) ∧
    group_sum (alertsBySeverity s) = length (w_docs w) ∧
    (∀ t, count_for (VStr t) (alertsByType s) = length (with_text "type" t (w_docs w))) ∧
    (∀ t, count_for (VStr t) (alertsBySeverity s)
          = length (with_text "severity" t (w_docs w))) ∧
    (∀ g, g ∈ alertsByType s → ∃ d, d ∈ w_docs w ∧ g.1 = field d "type") ∧
    (∀ g, g ∈ alertsBySeverity s → ∃ d, d ∈ w_docs w ∧ g.1 = field d "severity").
Proof.
  intros Hadm. eexists. split; [by apply (stats_overview_admin r w user)|].
  cbn [totalAlerts alertsByType alertsBySeverity].
  split; [by destruct (w_docs w)|].
  unfold group_count. rewrite !group_sum_foldl. split; [done|]. split; [done|].
  split; [by intros t; rewrite count_for_foldl|].
  split; [by intros t; rewrite count_for_foldl|].
  split; intros g [(g' & []%elem_of_nil & _)|H]%foldl_bump_keys; done.
Qed.

(** X18.  The statistics are for admins only: any other caller gets
    Forbidden and nothing is read, neither the clock nor the store. *)
Theorem stats_forbidden_without_admin (r : request) (w : world) :
  not_admin r → stats_overview B r w = (forbidden, w).
Proof. intros Hr. by apply gate_refuses. Qed.

End Facets.

(* ===================================================================== *)
(** ** The dashboard *)
(* ===================================================================== *)

Section DashboardFacts.
Variable B : backend.

Lemma dashboard_paged (f : gmap string cond) (l : list doc) :
  paged (list_query_of Dashboard.alerts_request f) l = Some (take 5 l).
Proof.
  unfold paged, list_query_of.
  cbn [q_skip q_limit Dashboard.alerts_request lq_limit lq_page default from_option id].
  replace (js_mul (js_sub (to_number (NumLit 1)) (jz 1)) (to_number (NumLit 5)))
    with (jz 0) by reflexivity.
  replace (js_mul (to_number (NumLit 5)) (jz 1)) with (jz 5) by reflexivity.
  reflexivity.
Qed.

(** X19.  The dashboard asks for five active alerts, so its "Total
    Alerts" card shows the number of public alerts with stored status
    active inside their window, capped at five; the "Active Alerts"
    card (high or critical ones among those shown) never exceeds it,
    the "Recent Alerts" panel lists at most three, and every alert
    shown satisfies the active conditions. *)
Theorem dashboard_cards (w : world) :
  let now := clock B (w_clock_reads w) in
  let shown := Dashboard.fetched_alerts (list_alerts B Dashboard.alerts_request w).1 in
  Dashboard.total_alerts_card shown
  = (5 `min` length (List.filter
       (matches B (add_window now (list_base_filter Dashboard.alerts_request))) (w_docs w)))%nat ∧
  (Dashboard.active_alerts_card shown ≤ Dashboard.total_alerts_card shown)%nat ∧
  length (Dashboard.recent_alerts shown) = (3 `min` Dashboard.total_alerts_card shown)%nat ∧
  (∀ a, a ∈ shown → a ∈ w_docs w ∧ active_list_conditions Dashboard.alerts_request now a).
Proof.
  intros now shown.
  assert (shown = take 5 (selected B (list_query_of Dashboard.alerts_request
            (add_window now (list_base_filter Dashboard.alerts_request))) w)) as Hshown.
  { unfold shown. rewrite list_alerts_run. cbn zeta. fold now.
    change (list_filter_at Dashboard.alerts_request now)
      with (add_window now (list_base_filter Dashboard.alerts_request)).
    change (q_conditions (list_query_of Dashboard.alerts_request
              (add_window now (list_base_filter Dashboard.alerts_request))))
      with (add_window now (list_base_filter Dashboard.alerts_request)).
    pose proof (list_filter_at_wf Dashboard.alerts_request now) as Hwf.
    change (list_filter_at Dashboard.alerts_request now)
      with (add_window now (list_base_filter Dashboard.alerts_request)) in Hwf.
    rewrite Hwf. by rewrite dashboard_paged. }
  unfold Dashboard.total_alerts_card, Dashboard.active_alerts_card, Dashboard.recent_alerts.
  split; [|split; [|split]].
  - rewrite Hshown, length_take. unfold selected. by rewrite length_sort_docs.
  - apply filter_length_le.
  - by rewrite length_take.
  - intros a Ha. rewrite Hshown in Ha.
    pose proof (elem_of_sublist _ _ _ Ha (sublist_take _ _)) as Hsel.
    apply elem_of_selected in Hsel as [Hin Hm]. split; [done|].
    by apply (matches_active_filter B Dashboard.alerts_request now a).
Qed.

End DashboardFacts.


(* ===================================================================== *)
(** ** The further theorems at work on the scenario data *)
(* ===================================================================== *)

Lemma admin_call_scenario id body :
  admin_call (Scenario.call (Some Scenario.admin) id body) Scenario.admin.
Proof. split; reflexivity. Defined.

Lemma list_other_status_skips_window_witness :
  lq_status expired_list = Some "expired" ∧
  list_filter Scenario.demo expired_list (Scenario.store_of three_alerts)
  = (Ok (list_base_filter expired_list), Scenario.store_of three_alerts).
Proof.
  split; [reflexivity|].
  assert ("expired" ≠ "active") as Hne by discriminate.
  exact (proj1 (list_other_status_skips_window Scenario.demo expired_list
    (Scenario.store_of three_alerts) "expired" Scenario.critical_slide eq_refl Hne)).
Defined.

Lemma list_half_location_ignored_witness :
  truthy_num (lq_lat latitude_only) && truthy_num (lq_lng latitude_only) = false ∧
  list_alerts Scenario.demo latitude_only (Scenario.store_of three_alerts)
  = list_alerts Scenario.demo (without_location latitude_only) (Scenario.store_of three_alerts).
Proof.
  split; [reflexivity|].
  exact (list_half_location_ignored Scenario.demo latitude_only
           (Scenario.store_of three_alerts) eq_refl).
Defined.

Lemma list_page_within_total_witness :
  let w := Scenario.store_of three_alerts in
  let p := {| current := jz 1; pages := jz 1; total := 3 |} in
  list_alerts Scenario.demo Scenario.any_list w
  = (AlertList [Scenario.critical_slide; Scenario.medium_flood; Scenario.mumbai_flood] p,
     (list_alerts Scenario.demo Scenario.any_list w).2) ∧
  (3 ≤ total p)%nat.
Proof.
  intros w p.
  assert (list_alerts Scenario.demo Scenario.any_list w
          = (AlertList [Scenario.critical_slide; Scenario.medium_flood; Scenario.mumbai_flood] p,
             (list_alerts Scenario.demo Scenario.any_list w).2)) as Hlist by vm_refl.
  split; [exact Hlist|].
  exact (list_page_within_total Scenario.demo Scenario.any_list w _ _ p eq_refl Hlist).
Defined.

Lemma pages_concatenate_witness :
  (∀ i j, clock frozen i = clock frozen j) ∧
  (fetch_pages frozen Scenario.any_list 2 2 (Scenario.store_of three_alerts)).1
  = selected frozen
      (list_query_of Scenario.any_list (list_filter_at Scenario.any_list (clock frozen 0)))
      (Scenario.store_of three_alerts).
Proof.
  assert (∀ i j, clock frozen i = clock frozen j) as Hclock by reflexivity.
  split; [exact Hclock|].
  assert (filter_wf (q_conditions (list_query_of Scenario.any_list
            (list_filter_at Scenario.any_list (clock frozen 0)))) = true) as Hwf by vm_refl.
  apply (pages_concatenate frozen Scenario.any_list 2 2 (Scenario.store_of three_alerts)
           eq_refl Hclock Hwf).
  unfold selected. rewrite length_sort_docs.
  etransitivity; [apply filter_length_le|]. vm_compute. lia.
Defined.

Lemma nearby_answer_follows_sort_witness :
  let answer := response_alerts (nearby_alerts Scenario.demo Scenario.at_delhi
                  (Scenario.store_of [Scenario.critical_slide; Scenario.medium_flood])).1 in
  answer !! 0%nat = Some Scenario.medium_flood ∧
  answer !! 1%nat = Some Scenario.critical_slide ∧
  bson_compare (field Scenario.medium_flood "severity")
               (field Scenario.critical_slide "severity") ≠ Lt.
Proof.
  intros answer.
  assert (answer !! 0%nat = Some Scenario.medium_flood) as H0 by vm_refl.
  assert (answer !! 1%nat = Some Scenario.critical_slide) as H1 by vm_refl.
  split; [exact H0|]. split; [exact H1|].
  exact (proj1 (nearby_answer_follows_sort Scenario.demo Scenario.at_delhi _ 0 _ _ H0 H1)).
Defined.

Lemma delete_removes_exactly_that_alert_witness :
  let r := Scenario.call (Some Scenario.admin) 5 VNull in
  let w := Scenario.store_of three_alerts in
  delete_alert r w = (Deleted, (delete_alert r w).2) ∧
  S (length (w_docs (delete_alert r w).2)) = length (w_docs w).
Proof.
  intros r w.
  assert (delete_alert r w = (Deleted, (delete_alert r w).2)) as Hdel by vm_refl.
  split; [exact Hdel|].
  exact (proj1 (proj2 (delete_removes_exactly_that_alert r w _ Hdel))).
Defined.




Lemma stats_facets_count_the_store_witness :
  let r := Scenario.call (Some Scenario.admin) 0 VNull in
  let w := Scenario.store_of three_alerts in
  ∃ s, stats_overview Scenario.demo r w = (Overview s, advanced 2 1 w) ∧
       count_for (VStr "flood") (alertsByType s) = 2%nat ∧
       count_for (VStr "landslide") (alertsByType s) = 1%nat ∧
       group_sum (alertsByType s) = 3%nat.
Proof.
  intros r w.
  destruct (stats_facets_count_the_store Scenario.demo r w Scenario.admin
              (admin_call_scenario _ _))
    as (s & Hs & _ & Hsum & _ & Htype & _).
  exists s. split; [exact Hs|]. rewrite !Htype, Hsum. repeat split; vm_refl.
Defined.

Lemma stats_forbidden_without_admin_witness :
  let r := Scenario.call (Some Scenario.resident) 0 VNull in
  not_admin r ∧
  stats_overview Scenario.demo r (Scenario.store_of three_alerts)
  = (forbidden, Scenario.store_of three_alerts).
Proof.
  intros r.
  assert (not_admin r) as H by (intros u [= <-]; discriminate).
  split; [exact H|].
  exact (stats_forbidden_without_admin Scenario.demo r (Scenario.store_of three_alerts) H).
Defined.


(* ===================================================================== *)
(** ** A radius of zero *)
(* ===================================================================== *)

Section ZeroRadius.
Variable B : backend.


End ZeroRadius.


Lemma nearby_alerts_restricted_witness :
  let w := Scenario.store_of [Scenario.critical_slide; Scenario.medium_flood] in
  Scenario.medium_flood ∈ response_alerts (nearby_alerts Scenario.demo Scenario.at_delhi w).1 ∧
  is_public Scenario.medium_flood ∧ field Scenario.medium_flood "status" = VStr "active".
Proof.
  intros w.
  assert (Scenario.medium_flood
            ∈ response_alerts (nearby_alerts Scenario.demo Scenario.at_delhi w).1) as Hin.
  { apply list_elem_of_lookup. exists 0%nat. vm_refl. }
  split; [exact Hin|].
  destruct (nearby_alerts_restricted Scenario.demo Scenario.at_delhi w _ Hin)
    as (_ & Hpub & Hstatus & _).
  split; [exact Hpub|exact Hstatus].
Defined.

Lemma list_alerts_public_only_witness :
  let w := Scenario.store_of [Scenario.internal_note; Scenario.medium_flood] in
  Scenario.medium_flood ∈ response_alerts (list_alerts Scenario.demo Scenario.any_list w).1 ∧
  is_public Scenario.medium_flood.
Proof.
  intros w.
  assert (Scenario.medium_flood
            ∈ response_alerts (list_alerts Scenario.demo Scenario.any_list w).1) as Hin.
  { apply list_elem_of_lookup. exists 0%nat. vm_refl. }
  split; [exact Hin|].
  exact (list_alerts_public_only Scenario.demo Scenario.any_list w _ Hin).
Defined.
